(** * gmail-assistant: authentication, search, retrieval and export

    A shallow embedding of [src/gmail_auth.py], [src/gmail_search.py] and
    [src/gmail_retriever.py].

    - Python [str] values are sequences of Unicode code points ([list N]).
    - JSON objects with a fixed shape (messages, parts, bodies, headers) are
      records whose optional keys are [option] fields; dictionaries built by
      the code itself ([header_dict]) and the filesystem are [gmap]s.
    - Effectful methods are computations in a state-and-exception monad over
      a [world] (filesystem, log of remote calls, standard output); whatever
      the program cannot decide by itself (the remote service, the consent
      flow, whether a path can be opened, the clock) is read from an
      environment [env] of oracles. *)

From Stdlib Require Import ZArith NArith List String Ascii DecimalString Lia.
From stdpp Require Import base option list countable gmap.
Import ListNotations.

Set Default Proof Using "Type".

(** ** Python values *)

(** A Python [str]: a sequence of code points. *)
Abbreviation str := (list N).

(** A Python [bytes]: a sequence of octets (each below 256). *)
Abbreviation bytes := (list N).

(** A string literal of the source. *)
Definition py (s : string) : str :=
  map N_of_ascii (list_ascii_of_string s).

(** ** The parts of the Python runtime library the code calls *)

Module Py.

(** [str(n)] for a non-negative [int]. *)
Definition str_of_nat (n : nat) : str :=
  py (NilEmpty.string_of_uint (Nat.to_uint n)).

(** [str(z)] for an [int]. *)
Definition str_of_Z (z : Z) : str :=
  py (NilZero.string_of_int (Z.to_int z)).

(** [s[:n]] *)
Definition slice_to (n : nat) (s : str) : str := firstn n s.

(** [bool(s)] for a string: non-empty. *)
Definition truthy (s : str) : bool :=
  match s with [] => false | _ :: _ => true end.

(** [c.isspace()] *)
Definition isspace (c : N) : bool :=
  ((9 <=? c) && (c <=? 13) || (28 <=? c) && (c <=? 32) || (c =? 133)
   || (c =? 160) || (c =? 5760) || (8192 <=? c) && (c <=? 8202)
   || (c =? 8232) || (c =? 8233) || (c =? 8239) || (c =? 8287)
   || (c =? 12288))%N.

Fixpoint lstrip (s : str) : str :=
  match s with
  | c :: r => if isspace c then lstrip r else s
  | [] => []
  end.

(** [s.strip()] *)
Definition strip (s : str) : str := rev (lstrip (rev (lstrip s))).

Fixpoint startswith (p s : str) : bool :=
  match p, s with
  | [], _ => true
  | a :: p', b :: s' => (a =? b)%N && startswith p' s'
  | _ :: _, [] => false
  end.

(** [s.split(sep)[0]] for a non-empty separator: the text before the
    first occurrence of [sep], all of [s] when there is none. *)
Fixpoint split_head (sep s : str) : str :=
  match s with
  | [] => []
  | c :: r => if startswith sep s then [] else c :: split_head sep r
  end.

(** *** base64 *)

(** [binascii]'s table of the standard alphabet. *)
Definition b64_value (c : N) : option N :=
  (if (65 <=? c) && (c <=? 90) then Some (c - 65)
   else if (97 <=? c) && (c <=? 122) then Some (c - 71)
   else if (48 <=? c) && (c <=? 57) then Some (c + 4)
   else if c =? 43 then Some 62
   else if c =? 47 then Some 63
   else None)%N.

(** The translation table of [urlsafe_b64decode]: '-' to '+', '_' to '/'. *)
Definition urlsafe_translate (c : N) : N :=
  (if c =? 45 then 43 else if c =? 95 then 47 else c)%N.

(** [binascii.a2b_base64] in its lenient mode: characters outside the
    alphabet are skipped, a completed pad sequence ends the input, and
    leftover characters of an unfinished quad are an error ([None]).
    [quad_pos] counts the data characters of the current quad, [leftchar]
    holds their pending bits, [pads] the '=' seen since the last data
    character. *)
Fixpoint a2b_base64 (quad_pos : nat) (leftchar : N) (pads : nat)
         (s : bytes) : option bytes :=
  match s with
  | [] => match quad_pos with O => Some [] | _ => None end
  | c :: r =>
    if (c =? 61)%N then
      if (2 <=? quad_pos)%nat then
        if (4 <=? quad_pos + S pads)%nat then Some []
        else a2b_base64 quad_pos leftchar (S pads) r
      else a2b_base64 quad_pos leftchar pads r
    else
      match b64_value c with
      | None => a2b_base64 quad_pos leftchar pads r
      | Some v =>
        match quad_pos with
        | 0%nat => a2b_base64 1 v 0 r
        | 1%nat =>
          cons (N.lor (N.shiftl leftchar 2) (N.shiftr v 4))
            <$> a2b_base64 2 (N.land v 15) 0 r
        | 2%nat =>
          cons (N.lor (N.shiftl leftchar 4) (N.shiftr v 2))
            <$> a2b_base64 3 (N.land v 3) 0 r
        | _ =>
          cons (N.lor (N.shiftl leftchar 6) v)
            <$> a2b_base64 0 0 0 r
        end
      end
  end.

(** [base64.urlsafe_b64decode(s)] for a [str] argument: the text must be
    ASCII ([ValueError] otherwise, here [None]). *)
Definition urlsafe_b64decode (s : str) : option bytes :=
  if forallb (fun c => c <? 128)%N s
  then a2b_base64 0 0 0 (map urlsafe_translate s)
  else None.

(** *** UTF-8 *)

Definition REPLACEMENT : N := 65533%N.

Definition is_cont (b : N) : bool := ((128 <=? b) && (b <? 192))%N.

Definition cp2 (b1 b2 : N) : N :=
  (N.lor (N.shiftl (N.land b1 31) 6) (N.land b2 63))%N.
Definition cp3 (b1 b2 b3 : N) : N :=
  (N.lor (N.shiftl (N.land b1 15) 12)
     (N.lor (N.shiftl (N.land b2 63) 6) (N.land b3 63)))%N.
Definition cp4 (b1 b2 b3 b4 : N) : N :=
  (N.lor (N.shiftl (N.land b1 7) 18)
     (N.lor (N.shiftl (N.land b2 63) 12)
        (N.lor (N.shiftl (N.land b3 63) 6) (N.land b4 63))))%N.

(** Is [b2] an admissible second octet after the lead octet [b1]? This
    excludes overlong forms, surrogates and code points above 10FFFF. *)
Definition second_ok (b1 b2 : N) : bool :=
  (is_cont b2
   && negb ((b1 =? 224) && (b2 <? 160))
   && negb ((b1 =? 237) && (160 <=? b2))
   && negb ((b1 =? 240) && (b2 <? 144))
   && negb ((b1 =? 244) && (144 <=? b2)))%N.

(** [bs.decode('utf-8', errors='replace')]: every maximal ill-formed
    run (an invalid lead octet, or a lead octet with the admissible
    octets that follow it) becomes one U+FFFD; never fails. *)
Fixpoint utf8_decode_replace (bs : bytes) : str :=
  match bs with
  | [] => []
  | b1 :: r1 =>
    if (b1 <? 128)%N then b1 :: utf8_decode_replace r1
    else if (b1 <? 194)%N then REPLACEMENT :: utf8_decode_replace r1
    else if (b1 <? 224)%N then
      match r1 with
      | [] => [REPLACEMENT]
      | b2 :: r2 =>
        if is_cont b2 then cp2 b1 b2 :: utf8_decode_replace r2
        else REPLACEMENT :: utf8_decode_replace r1
      end
    else if (b1 <? 240)%N then
      match r1 with
      | [] => [REPLACEMENT]
      | b2 :: r2 =>
        if second_ok b1 b2 then
          match r2 with
          | [] => [REPLACEMENT]
          | b3 :: r3 =>
            if is_cont b3 then cp3 b1 b2 b3 :: utf8_decode_replace r3
            else REPLACEMENT :: utf8_decode_replace r2
          end
        else REPLACEMENT :: utf8_decode_replace r1
      end
    else if (b1 <? 245)%N then
      match r1 with
      | [] => [REPLACEMENT]
      | b2 :: r2 =>
        if second_ok b1 b2 then
          match r2 with
          | [] => [REPLACEMENT]
          | b3 :: r3 =>
            if is_cont b3 then
              match r3 with
              | [] => [REPLACEMENT]
              | b4 :: r4 =>
                if is_cont b4
                then cp4 b1 b2 b3 b4 :: utf8_decode_replace r4
                else REPLACEMENT :: utf8_decode_replace r3
              end
            else REPLACEMENT :: utf8_decode_replace r2
          end
        else REPLACEMENT :: utf8_decode_replace r1
      end
    else REPLACEMENT :: utf8_decode_replace r1
  end.

(** *** [re.sub(r'<[^>]+>', '', s)] *)

(** The text after the first '>' of [s] when at least one character
    precedes it: what is left once [[^>]+>] has matched at the head. *)
Fixpoint after_tag_body (seen : bool) (s : str) : option str :=
  match s with
  | [] => None
  | c :: r =>
    if (c =? 62)%N then (if seen then Some r else None)
    else after_tag_body true r
  end.

Fixpoint strip_tags_fuel (fuel : nat) (s : str) : str :=
  match fuel with
  | O => s
  | S fuel' =>
    match s with
    | [] => []
    | c :: r =>
      if (c =? 60)%N then
        match after_tag_body false r with
        | Some rest => strip_tags_fuel fuel' rest
        | None => c :: strip_tags_fuel fuel' r
        end
      else c :: strip_tags_fuel fuel' r
    end
  end.

(** Leftmost, non-overlapping matches are deleted; one unit of fuel per
    character is always enough. *)
Definition strip_tags (s : str) : str := strip_tags_fuel (length s) s.

End Py.

(** ** [datetime]: the date parser and printer of the runtime library *)

(** What [extract_message_metadata] needs from [datetime]: the parser
    [datetime.strptime(s, '%a, %d %b %Y %H:%M:%S %z')], which raises
    [ValueError] ([None]) on a string that does not match, and
    [datetime.isoformat()]. The theorems hold for every implementation;
    [Rfc2822.reference] below is one that can be run. *)
Class DatetimeLib := {
  datetime : Type;
  strptime : str -> option datetime;
  isoformat : datetime -> str
}.

(** A naive [datetime], as [datetime.now()] returns it. *)
Record naive_datetime := NaiveDatetime {
  nd_year : nat; nd_month : nat; nd_day : nat;
  nd_hour : nat; nd_minute : nat; nd_second : nat
}.

Module Strftime.

(** [%0wd] *)
Definition zero_pad (width n : nat) : str :=
  let digits := Py.str_of_nat n in
  repeat 48%N (width - length digits) ++ digits.

(** [dt.strftime("%Y%m%d_%H%M%S")] (for a year of four digits, which the
    clock of a running system has). *)
Definition stamp (dt : naive_datetime) : str :=
  zero_pad 4 (nd_year dt) ++ zero_pad 2 (nd_month dt)
  ++ zero_pad 2 (nd_day dt) ++ py "_" ++ zero_pad 2 (nd_hour dt)
  ++ zero_pad 2 (nd_minute dt) ++ zero_pad 2 (nd_second dt).

End Strftime.

Module Rfc2822.

(** A backtracking matcher in the order of the regular expression that
    [strptime] compiles the format to: a parser returns every way to
    match a prefix, the preferred one first. *)
Definition parser (A : Type) : Type := str -> list (A * str).

Definition ret {A} (a : A) : parser A := fun s => [(a, s)].

Definition bind {A B} (p : parser A) (k : A -> parser B) : parser B :=
  fun s => flat_map (fun ar => k (fst ar) (snd ar)) (p s).

Definition alt {A} (p q : parser A) : parser A := fun s => p s ++ q s.

Definition sat (f : N -> bool) : parser N :=
  fun s => match s with
           | c :: r => if f c then [(c, r)] else []
           | [] => []
           end.

Definition opt {A} (p : parser A) (d : A) : parser A := alt p (ret d).

Local Notation "'let*' x := p 'in' k" := (bind p (fun x => k))
  (at level 10, x name, p at level 100, k at level 200).

Definition lower (c : N) : N :=
  (if (65 <=? c) && (c <=? 90) then c + 32 else c)%N.

(** A character class [[lo-hi]] of ASCII digits. *)
Definition digit (lo hi : N) : parser N :=
  sat (fun c => (48 + lo <=? c) && (c <=? 48 + hi))%N.

(** The zero of every run of ten decimal digits (category Nd of Unicode
    14.0, the table of CPython 3.11): ASCII, Arabic-Indic, Devanagari and
    so on, up to the digits of the legacy computing block. *)
Definition decimal_zeros : list N :=
  [48; 1632; 1776; 1984; 2406; 2534; 2662; 2790; 2918; 3046; 3174; 3302;
   3430; 3558; 3664; 3792; 3872; 4160; 4240; 6112; 6160; 6470; 6608; 6784;
   6800; 6992; 7088; 7232; 7248; 42528; 43216; 43264; 43472; 43504; 43600;
   44016; 65296; 66720; 68912; 69734; 69872; 69942; 70096; 70384; 70736;
   70864; 71248; 71360; 71472; 71904; 72016; 72784; 73040; 73120; 92768;
   92864; 93008; 120782; 120792; 120802; 120812; 120822; 123200; 123632;
   125264; 130032]%N.

(** The value of a decimal digit, as [int] reads it. *)
Definition decimal_value (c : N) : option nat :=
  (fun zero => N.to_nat (c - zero))
    <$> find (fun zero => (zero <=? c) && (c <=? zero + 9))%N decimal_zeros.

Definition is_decimal (c : N) : bool :=
  match decimal_value c with Some _ => true | None => false end.

(** [\d] in a [str] pattern: any decimal digit, not only ASCII. *)
Definition decimal : parser N := sat is_decimal.

Definition chr (c : N) : parser N := sat (N.eqb c).

(** A literal word under [re.IGNORECASE]. Of the letters in the names of
    days and months, [i] and [s] also match U+0130, U+0131 and U+017F
    there; the name found is then looked up in lower case, which fails for
    these three, so that they are no match here. *)
Fixpoint word (w : str) : parser unit :=
  match w with
  | [] => ret tt
  | a :: w' => let* _ := sat (fun c => lower c =? a)%N in word w'
  end.

(** [\s+], greedy: the longest run first, then shorter ones. *)
Fixpoint spaces_from (s : str) : list (unit * str) :=
  match s with
  | c :: r => if Py.isspace c then spaces_from r ++ [(tt, r)] else []
  | [] => []
  end.
Definition spaces : parser unit := spaces_from.

(** The first alternative among named words that matches, with its
    index (from 1). *)
Fixpoint one_of (i : nat) (ws : list string) : parser nat :=
  match ws with
  | [] => fun _ => []
  | w :: ws' => alt (let* _ := word (py w) in ret i) (one_of (S i) ws')
  end.

Definition val (c : N) : nat := default 0 (decimal_value c).

(** [%d]: 3[0-1] | [1-2]\d | 0[1-9] | [1-9] | " "[1-9] *)
Definition p_day : parser nat :=
  alt (let* a := chr 51 in let* b := digit 0 1 in ret (10 * val a + val b))
 (alt (let* a := digit 1 2 in let* b := decimal in ret (10 * val a + val b))
 (alt (let* _ := chr 48 in let* b := digit 1 9 in ret (val b))
 (alt (let* b := digit 1 9 in ret (val b))
      (let* _ := chr 32 in let* b := digit 1 9 in ret (val b))))).

(** [%Y]: \d\d\d\d *)
Definition p_year : parser nat :=
  let* a := decimal in let* b := decimal in
  let* c := decimal in let* d := decimal in
  ret (1000 * val a + 100 * val b + 10 * val c + val d).

(** [%H]: 2[0-3] | [0-1]\d | \d *)
Definition p_hour : parser nat :=
  alt (let* a := chr 50 in let* b := digit 0 3 in ret (10 * val a + val b))
 (alt (let* a := digit 0 1 in let* b := decimal in ret (10 * val a + val b))
      (let* b := decimal in ret (val b))).

(** [%M]: [0-5]\d | \d *)
Definition p_minute : parser nat :=
  alt (let* a := digit 0 5 in let* b := decimal in ret (10 * val a + val b))
      (let* b := decimal in ret (val b)).

(** [%S]: 6[0-1] | [0-5]\d | \d *)
Definition p_second : parser nat :=
  alt (let* a := chr 54 in let* b := digit 0 1 in ret (10 * val a + val b))
 (alt (let* a := digit 0 5 in let* b := decimal in ret (10 * val a + val b))
      (let* b := decimal in ret (val b))).

(** Between one and [n] digits, greedy; the matched text. *)
Fixpoint digits_upto (n : nat) : parser str :=
  match n with
  | O => fun _ => []
  | S n' =>
    let* a := decimal in
    let* rest := opt (digits_upto n') [] in ret (a :: rest)
  end.

(** [%z]: [+-]\d\d:?[0-5]\d(:?[0-5]\d(\.\d{1,6})?)? | Z; the matched text. *)
Definition p_zone : parser str :=
  alt (let* sg := sat (fun c => (c =? 43) || (c =? 45))%N in
       let* h1 := decimal in let* h2 := decimal in
       let* c1 := opt (let* c := chr 58 in ret [c]) [] in
       let* m1 := digit 0 5 in let* m2 := decimal in
       let* tail :=
         opt (let* c2 := opt (let* c := chr 58 in ret [c]) [] in
              let* s1 := digit 0 5 in let* s2 := decimal in
              let* frac := opt (let* dot := chr 46 in
                                let* ds := digits_upto 6 in
                                ret (dot :: ds)) [] in
              ret (c2 ++ [s1; s2] ++ frac)) [] in
       ret ([sg; h1; h2] ++ c1 ++ [m1; m2] ++ tail))
      (let* z := sat (N.eqb 90) in ret [z]).

Definition weekdays : list string :=
  ["mon"; "tue"; "wed"; "thu"; "fri"; "sat"; "sun"]%string.
Definition months : list string :=
  ["jan"; "feb"; "mar"; "apr"; "may"; "jun";
   "jul"; "aug"; "sep"; "oct"; "nov"; "dec"]%string.

Record fields := Fields {
  f_year : nat; f_month : nat; f_day : nat;
  f_hour : nat; f_minute : nat; f_second : nat; f_zone : str
}.

(** '%a, %d %b %Y %H:%M:%S %z' *)
Definition p_format : parser fields :=
  let* _ := one_of 1 weekdays in let* _ := chr 44 in let* _ := spaces in
  let* d := p_day in let* _ := spaces in
  let* b := one_of 1 months in let* _ := spaces in
  let* y := p_year in let* _ := spaces in
  let* h := p_hour in let* _ := chr 58 in
let* m := p_minute in let* _ := chr 58 in
  let* s := p_second in let* _ := spaces in
  let* z := p_zone in
  ret (Fields y b d h m s z).

(** [int(s)] on decimal digits. *)
Definition int_of (s : str) : option nat :=
  if forallb is_decimal s && Py.truthy s
  then Some (fold_left (fun acc c => 10 * acc + val c) s 0)
  else None.

(** An aware [datetime]: civil time and the offset from UTC. *)
Record aware := Aware {
  year : nat; month : nat; day : nat;
  hour : nat; minute : nat; second : nat;
  off_negative : bool; off_seconds : nat; off_micros : nat
}.

Definition leap (y : nat) : bool :=
  ((y mod 4 =? 0) && negb (y mod 100 =? 0) || (y mod 400 =? 0))%nat.

Definition days_in_month (y m : nat) : nat :=
  match m with
  | 2 => if leap y then 29 else 28
  | 4 | 6 | 9 | 11 => 30
  | _ => 31
  end.

(** The offset that [_strptime] computes from the text matched by %z:
    sign, whole seconds and microseconds. *)
Definition zone_offset (z0 : str) : option (bool * nat * nat) :=
  if decide (z0 = py "Z") then Some (false, 0, 0) else
  z1 ← (if decide (z0 !! 3%nat = Some 58%N) then
           let z := firstn 3 z0 ++ skipn 4 z0 in
           if (5 <? length z)%nat then
             if decide (z !! 5%nat = Some 58%N)
             then Some (firstn 5 z ++ skipn 6 z) else None
           else Some z
         else Some z0);
  hours ← int_of (firstn 2 (skipn 1 z1));
  minutes ← int_of (firstn 2 (skipn 3 z1));
  seconds ← (match firstn 2 (skipn 5 z1) with
             | [] => Some 0
             | t => int_of t
             end);
  let rem := skipn 8 z1 in
  micros ← int_of (rem ++ repeat 48%N (6 - length rem));
  Some (Py.startswith (py "-") z1,
        hours * 3600 + minutes * 60 + seconds, micros).

(** [datetime.strptime(s, '%a, %d %b %Y %H:%M:%S %z')]: the first match
    of the pattern must use up the text, and the fields must make a valid
    [datetime] with an offset of less than a day. The weekday is matched
    and not compared with the date. *)
Definition parse (s : str) : option aware :=
  match p_format s with
  | (f, []) :: _ =>
    '(neg, secs, micros) ← zone_offset (f_zone f);
    if (1 <=? f_year f)%nat
       && (f_day f <=? days_in_month (f_year f) (f_month f))%nat
       && (f_second f <=? 59)%nat
       && (secs <? 24 * 3600)%nat
    then Some (Aware (f_year f) (f_month f) (f_day f) (f_hour f)
                     (f_minute f) (f_second f)
                     (neg && negb ((secs =? 0) && (micros =? 0))%nat)
                     secs micros)
    else None
  | _ => None
  end.

Definition pad := Strftime.zero_pad.

(** [dt.isoformat()] of an aware [datetime] without microseconds. *)
Definition iso (dt : aware) : str :=
  pad 4 (year dt) ++ py "-" ++ pad 2 (month dt) ++ py "-" ++ pad 2 (day dt)
  ++ py "T" ++ pad 2 (hour dt) ++ py ":" ++ pad 2 (minute dt) ++ py ":"
  ++ pad 2 (second dt)
  ++ (if off_negative dt then py "-" else py "+")
  ++ pad 2 (off_seconds dt / 3600) ++ py ":"
  ++ pad 2 (off_seconds dt mod 3600 / 60)
  ++ (if ((off_seconds dt mod 60 =? 0) && (off_micros dt =? 0))%nat then []
      else py ":" ++ pad 2 (off_seconds dt mod 60)
           ++ (if (off_micros dt =? 0)%nat then []
               else py "." ++ pad 6 (off_micros dt))).

(** The parser and printer above, with the English day and month names
    of the C locale. *)
Definition reference : DatetimeLib :=
  {| datetime := aware; strptime := parse; isoformat := iso |}.

End Rfc2822.

(** ** The message representation of the remote service *)

(** One entry of a part's ['headers'] list. *)
Record header := Header { h_name : str; h_value : str }.

(** A part's ['body'] object; ['data'] and ['size'] may be missing. *)
Record body := Body { body_data : option str; body_size : option Z }.

#[local] Unset Elimination Schemes.

(** A node of the MIME tree; every key may be missing. The ['payload'] of
    a message is such a node, and so is every element of a ['parts']
    list. *)
Inductive part := Part {
  part_filename : option str;
  part_mimeType : option str;
  part_headers : option (list header);
  part_body : option body;
  part_parts : option (list part)
}.

#[local] Set Elimination Schemes.

(** A message resource: ['id'] and ['threadId'] are always there, the
    other keys are read with a default by the code. *)
Record message := Message {
  msg_id : str;
  msg_threadId : str;
  msg_labelIds : option (list str);
  msg_snippet : option str;
  msg_payload : option part
}.

(** The children of a node: [payload['parts']] when the key is there. *)
Definition children (p : part) : list part := default [] (part_parts p).

(** [q] is a node of the tree below [p]: a child, or a node below a child. *)
Inductive below (p : part) : part -> Prop :=
| below_child q : In q (children p) -> below p q
| below_deeper c q : In c (children p) -> below c q -> below p q.

(** The nodes strictly below [p], each before its own children, siblings
    from left to right. *)
Fixpoint descendants (p : part) : list part :=
  match part_parts p with
  | Some ps => flat_map (fun q => q :: descendants q) ps
  | None => []
  end.

(** Depth-first pre-order over the whole tree, the root first. *)
Definition preorder (p : part) : list part := p :: descendants p.

(** ** [GmailRetriever]: the pure extractors *)

(** [{h['name']: h['value'] for h in headers}] *)
Definition header_dict (headers : list header) : gmap str str :=
  fold_left (fun d h => <[h_name h := h_value h]> d) headers ∅.

(** [message.get('payload', {}).get('headers', [])] *)
Definition payload_headers (payload : option part) : list header :=
  default [] (payload ≫= part_headers).

(** [decode_base64]: any failure of the decoding gives the empty text. *)
Definition decode_base64 (data : str) : str :=
  match Py.urlsafe_b64decode data with
  | Some raw => Py.utf8_decode_replace raw
  | None => []
  end.

(** What the first [if] of [extract_from_payload] adds for the node
    itself. *)
Definition own_text (payload : part) : str :=
  match part_body payload ≫= body_data with
  | Some data =>
    if decide (part_mimeType payload = Some (py "text/plain")) then
      decode_base64 data
    else if decide (part_mimeType payload = Some (py "text/html")) then
      Py.strip_tags (decode_base64 data)
    else []
  | None => []
  end.

Fixpoint extract_from_payload (payload : part) : str :=
  let body_text := own_text payload in
  match part_parts payload with
  | Some ps =>
    fold_left (fun body_text part => body_text ++ extract_from_payload part)
              ps body_text
  | None => body_text
  end.

Definition extract_email_body (message : message) : str :=
  match msg_payload message with
  | Some payload => extract_from_payload payload
  | None => []
  end.

(** An entry of the ['attachments'] list. *)
Record attachment := Attachment {
  att_filename : str;
  att_mimeType : str;
  att_size : Z
}.

(** The dictionary [extract_message_metadata] returns, key by key. *)
Record metadata := Metadata {
  md_id : str;
  md_thread_id : str;
  md_labels : list str;
  md_snippet : str;
  md_from : str;
  md_to : str;
  md_cc : str;
  md_bcc : str;
  md_subject : str;
  md_date : option str;
  md_date_raw : str;
  md_attachments : list attachment;
  md_attachment_count : nat
}.

(** Its keys, in insertion order. *)
Definition metadata_keys : list str :=
  map py ["id"; "thread_id"; "labels"; "snippet"; "from"; "to"; "cc"; "bcc";
          "subject"; "date"; "date_raw"; "attachments";
          "attachment_count"]%string.

(** The descriptor appended for a part with a file name. *)
Definition describe (part : part) (filename : str) : attachment :=
  {| att_filename := filename;
     att_mimeType := default [] (part_mimeType part);
     att_size := default 0%Z (part_body part ≫= body_size) |}.

(** [find_attachments] appends to the list [attachments] of the enclosing
    call; the list is threaded through. *)
Fixpoint find_attachments (payload : part) (attachments : list attachment)
  : list attachment :=
  match part_parts payload with
  | Some ps =>
    fold_left
      (fun attachments part =>
         let attachments :=
           match part_filename part with
           | Some filename =>
             if Py.truthy filename
             then attachments ++ [describe part filename]
             else attachments
           | None => attachments
           end in
         find_attachments part attachments)
      ps attachments
  | None => attachments
  end.

(** [date_str.split(' (')[0].strip()]: the text handed to the date
    parser, what precedes the first [" ("] without surrounding white
    space. *)
Definition date_text (date_str : str) : str :=
  Py.strip (Py.split_head (py " (") date_str).

Section metadata.

Context {L : DatetimeLib}.

(** The [try]/[except] around the date parser. *)
Definition parse_date (date_str : str) : option str :=
  if Py.truthy date_str then
    match strptime (date_text date_str) with
    | Some dt => Some (isoformat dt)
    | None => Some date_str
    end
  else None.

Definition extract_message_metadata (message : message) : metadata :=
  let headers := payload_headers (msg_payload message) in
  let header_dict := header_dict headers in
  let attachments :=
    match msg_payload message with
    | Some payload => find_attachments payload []
    | None => []
    end in
  let date_str := default [] (header_dict !! py "Date") in
  let parsed_date := parse_date date_str in
  {| md_id := msg_id message;
     md_thread_id := msg_threadId message;
     md_labels := default [] (msg_labelIds message);
     md_snippet := default [] (msg_snippet message);
     md_from := default [] (header_dict !! py "From");
     md_to := default [] (header_dict !! py "To");
     md_cc := default [] (header_dict !! py "Cc");
     md_bcc := default [] (header_dict !! py "Bcc");
     md_subject := default [] (header_dict !! py "Subject");
     md_date := parsed_date;
     md_date_raw := date_str;
     md_attachments := attachments;
     md_attachment_count := length attachments |}.

End metadata.

(** ** Effects: exceptions, the world, the environment *)

(** The exceptions the code distinguishes; [Error] is any other exception,
    with its message. All of them are caught by [except Exception]. *)
Inductive exn :=
| FileNotFoundError (msg : str)
| KeyError (key : str)
| RefreshError (msg : str)
| Error (msg : str).

(** [str(e)] *)
Definition exn_str (e : exn) : str :=
  match e with
  | FileNotFoundError msg | RefreshError msg | Error msg => msg
  | KeyError key => py "'" ++ key ++ py "'"
  end.

Inductive outcome (A : Type) :=
| Returns (a : A)
| Raises (e : exn).
Arguments Returns {A} a.
Arguments Raises {A} e.

(** An OAuth2 credential, with the attributes [authenticate] reads. *)
Record credentials := Credentials {
  cred_valid : bool;
  cred_expired : bool;
  cred_refresh_token : option str
}.

(** The authenticated handle [build] returns. *)
Record service := Service { svc_credentials : credentials }.

(** One entry of the ['messages'] list of a list response. *)
Record message_ref := MessageRef { ref_id : str; ref_threadId : str }.

Record list_response := ListResponse {
  lr_messages : option (list message_ref);
  lr_resultSizeEstimate : option Z
}.

(** The [format] argument of [messages().get]. *)
Inductive format := FormatMetadata | FormatFull.

(** One call that leaves the process, with what came back. *)
Inductive event :=
| MessagesList (q : str) (maxResults : Z) (r : outcome list_response)
| MessagesGet (id : str) (fmt : format) (r : outcome message)
| TokenRefresh (c : credentials) (r : outcome credentials)
| ConsentFlow (credentials_file : str) (r : outcome credentials)
| ServiceBuild (c : credentials) (r : outcome service).

(** The row handed to [DictWriter.writerow]: the metadata dictionary with
    the ['body_preview'] key added. *)
Record csv_row := CsvRecord {
  row_metadata : metadata;
  row_body_preview : str
}.

(** What a file holds: the sequence of writes that produced it, each
    through the serializer the code used. *)
Inductive chunk :=
| Text (s : str)
| JsonDump (messages : list message)
| CsvHeader (fieldnames : list str)
| CsvRow (row : csv_row)
| Pickle (creds : credentials).

Record world := World {
  fs : gmap str (list chunk);
  net : list event;
  stdout : list str
}.

(** What the outside decides. The answers of the remote side may depend
    on the calls made so far. *)
Record env := Env {
  open_error : str -> option str;
  messages_list : list event -> str -> Z -> outcome list_response;
  messages_get : list event -> str -> format -> outcome message;
  token_refresh : list event -> credentials -> outcome credentials;
  consent_flow : list event -> str -> outcome credentials;
  service_build : list event -> credentials -> outcome service;
  now : naive_datetime
}.

(** Computations that read and change the world and may raise. *)
Definition M (A : Type) : Type := world -> outcome A * world.

#[global] Instance M_ret : MRet M := fun A a w => (Returns a, w).

#[global] Instance M_bind : MBind M := fun A B k m w =>
  match m w with
  | (Returns a, w') => k a w'
  | (Raises e, w') => (Raises e, w')
  end.

Definition raise {A} (e : exn) : M A := fun w => (Raises e, w).

(** [try: m except Exception as e: handler e] *)
Definition try_except {A} (m : M A) (handler : exn -> M A) : M A :=
  fun w => match m w with
           | (Raises e, w') => handler e w'
           | r => r
           end.

(** [print(s)] *)
Definition print (s : str) : M unit :=
  fun w => (Returns tt, World (fs w) (net w) (stdout w ++ [s])).

(** [os.path.exists(path)] *)
Definition path_exists (path : str) : M bool :=
  fun w => (Returns (bool_decide (is_Some (fs w !! path))), w).

Section effects.

Context (E : env).

(** [open(path, 'w')]: the file is created or emptied, unless the path
    cannot be opened. *)
Definition open_w (path : str) : M unit :=
  fun w => match open_error E path with
           | Some msg => (Raises (Error msg), w)
           | None => (Returns tt, World (<[path := []]> (fs w)) (net w)
                                        (stdout w))
           end.

(** A write through the handle opened on [path]. *)
Definition write (path : str) (c : chunk) : M unit :=
  fun w => (Returns tt,
            World (<[path := default [] (fs w !! path) ++ [c]]> (fs w))
                  (net w) (stdout w)).

(** [pickle.load] from the file at [path]. *)
Definition unpickle (path : str) : M credentials :=
  fun w => match fs w !! path with
           | Some [Pickle creds] => (Returns creds, w)
           | _ => (Raises (Error (py "could not unpickle")), w)
           end.

(** A call to the outside: the answer is logged and returned or raised. *)
Definition call {A} (answer : list event -> outcome A)
           (log : outcome A -> event) : M A :=
  fun w => let r := answer (net w) in
           (r, World (fs w) (net w ++ [log r]) (stdout w)).

Definition list_messages (q : str) (max_results : Z) : M list_response :=
  call (fun h => messages_list E h q max_results)
       (MessagesList q max_results).

Definition get_message (id : str) (fmt : format) : M message :=
  call (fun h => messages_get E h id fmt) (MessagesGet id fmt).

End effects.

(** ** [gmail_auth.py] *)

(** A [GmailAuthenticator] object. One object is shared by the searcher
    and the retriever built on it; its [service] attribute is the only
    one that changes. *)
Record authenticator := Authenticator {
  credentials_file : str;
  token_file : str;
  auth_service : option service
}.

Module GmailAuthenticator.
Section methods.

Context (E : env).

(** [__init__] *)
Definition init (credentials_file token_file : str) : authenticator :=
  Authenticator credentials_file token_file None.

Definition default_credentials_file : str := py "credentials.json".
Definition default_token_file : str := py "token.pickle".

Definition _run_oauth_flow (self : authenticator) : M credentials :=
  call (fun h => consent_flow E h (credentials_file self))
       (ConsentFlow (credentials_file self)).

Definition _save_token (self : authenticator) (creds : credentials)
  : M unit :=
  open_w E (token_file self);;
  write (token_file self) (Pickle creds);;
  print (py "Token saved to " ++ token_file self).

(** The message of the [FileNotFoundError]. *)
Definition missing_credentials_message (self : authenticator) : str :=
  py "Credentials file '" ++ credentials_file self ++ py "' not found. "
  ++ py "Please download it from Google Cloud Console.".

Definition authenticate (self : authenticator)
  : M (service * authenticator) :=
  present ← path_exists (credentials_file self);
  if negb present then
    raise (FileNotFoundError (missing_credentials_message self))
  else
    has_token ← path_exists (token_file self);
    creds ← (if has_token : bool
             then c ← unpickle (token_file self); mret (Some c)
             else mret None : M (option credentials));
    creds ←
      (match creds with
       | Some c =>
         if cred_valid c then mret c
         else if cred_expired c
                 && from_option Py.truthy false (cred_refresh_token c)
         then
           c' ← (print (py "Refreshing expired token...");;
                 try_except
                   (call (fun h => token_refresh E h c) (TokenRefresh c))
                   (fun e =>
                      match e with
                      | RefreshError _ =>
                        print (py "Token refresh failed. "
                               ++ py "Re-authenticating...");;
                        _run_oauth_flow self
                      | _ => raise e
                      end));
           _save_token self c';; mret c'
         else
           print (py "No valid credentials found. Starting OAuth flow...");;
           c' ← _run_oauth_flow self;
           _save_token self c';; mret c'
       | None =>
         print (py "No valid credentials found. Starting OAuth flow...");;
         c' ← _run_oauth_flow self;
         _save_token self c';; mret c'
       end);
    service ← call (fun h => service_build E h creds) (ServiceBuild creds);
    print (py "Successfully authenticated with Gmail API");;
    mret (service,
          Authenticator (credentials_file self) (token_file self)
                        (Some service)).

Definition get_service (self : authenticator) : option service :=
  auth_service self.

Definition is_authenticated (self : authenticator) : bool :=
  bool_decide (is_Some (auth_service self)).

End methods.
End GmailAuthenticator.

(** ** [gmail_search.py] *)

(** A [GmailSearcher] object. [s_auth] is a reference to the
    authenticator it was built on. *)
Record searcher := Searcher {
  s_auth : authenticator;
  s_service : option service
}.

(** The dictionary [search] builds for one hit. *)
Record search_item := SearchItem {
  si_id : str;
  si_thread_id : str;
  si_snippet : str;
  si_from : str;
  si_to : str;
  si_subject : str;
  si_date : str;
  si_labels : list str
}.

(** A step that raises or returns without touching the world. *)
Definition lift {A} (r : outcome A) : M A := fun w => (r, w).

(** [for x in l: body x] *)
Fixpoint for_each {A} (l : list A) (body : A -> M unit) : M unit :=
  match l with
  | [] => mret tt
  | x :: rest => body x;; for_each rest body
  end.

(** [x or default] on an optional string argument. *)
Definition or_default (x : option str) (d : str) : str :=
  match x with
  | Some s => if Py.truthy s then s else d
  | None => d
  end.

Module GmailSearcher.
Section methods.

Context (E : env).

(** [__init__(authenticator=None, credentials_file=None)] *)
Definition init (authenticator : option authenticator)
           (credentials_file : option str) : searcher :=
  match authenticator with
  | Some a => Searcher a (GmailAuthenticator.get_service a)
  | None =>
    let credentials_file :=
      or_default credentials_file (py "../credentials.json") in
    let token_file := py "../token.pickle" in
    Searcher (GmailAuthenticator.init credentials_file token_file) None
  end.

Definition authenticate (self : searcher) : M (service * searcher) :=
  match s_service self with
  | Some service => mret (service, self)
  | None =>
    '(service, auth) ← GmailAuthenticator.authenticate E (s_auth self);
    mret (service, Searcher auth (Some service))
  end.

(** [if not self.service: self.authenticate()] *)
Definition ensure_service (self : searcher) : M searcher :=
  match s_service self with
  | Some _ => mret self
  | None => '(_, self') ← authenticate self; mret self'
  end.

(** The body of the loop after the remote call: indexing a missing key
    raises [KeyError]. *)
Definition message_info (msg : message_ref) (message_data : message)
  : outcome search_item :=
  match msg_payload message_data with
  | None => Raises (KeyError (py "payload"))
  | Some payload =>
    let headers := default [] (part_headers payload) in
    let header_dict := header_dict headers in
    match msg_snippet message_data with
    | None => Raises (KeyError (py "snippet"))
    | Some snippet =>
      Returns
        {| si_id := ref_id msg;
           si_thread_id := msg_threadId message_data;
           si_snippet := snippet;
           si_from := default (py "Unknown") (header_dict !! py "From");
           si_to := default (py "Unknown") (header_dict !! py "To");
           si_subject :=
             default (py "No Subject") (header_dict !! py "Subject");
           si_date := default (py "Unknown") (header_dict !! py "Date");
           si_labels := default [] (msg_labelIds message_data) |}
    end
  end.

(** [for i, msg in enumerate(messages)], from index [i] on. *)
Fixpoint search_loop (total i : nat) (messages : list message_ref)
         (message_list : list search_item) : M (list search_item) :=
  match messages with
  | [] => mret message_list
  | msg :: rest =>
    (if ((i + 1) mod 10 =? 0)%nat then
       print (py "Processing message " ++ Py.str_of_nat (i + 1) ++ py "/"
              ++ Py.str_of_nat total ++ py "...")
     else mret tt);;
    message_data ← get_message E (ref_id msg) FormatMetadata;
    info ← lift (message_info msg message_data);
    search_loop total (S i) rest (message_list ++ [info])
  end.

Definition search (self : searcher) (query : str) (max_results : Z)
  : M (list search_item * searcher) :=
  self ← ensure_service self;
  print (py "Searching Gmail with query: '" ++ query ++ py "'");;
  print (py "Maximum results: " ++ Py.str_of_Z max_results);;
  found ←
    try_except
      (result ← list_messages E query max_results;
       let messages := default [] (lr_messages result) in
       match messages with
       | [] =>
         print (py "No messages found matching query: '" ++ query
                ++ py "'");;
         mret []
       | _ :: _ =>
         print (py "Found " ++ Py.str_of_nat (length messages)
                ++ py " messages");;
         message_list ← search_loop (length messages) 0 messages [];
         print (py "Search complete. Retrieved "
                ++ Py.str_of_nat (length message_list) ++ py " messages.");;
         mret message_list
       end)
      (fun e => print (py "Error during search: " ++ exn_str e);; mret []);
  mret (found, self).

Definition search_by_sender (self : searcher) (sender_email : str)
           (max_results : Z) : M (list search_item * searcher) :=
  let query := py "from:" ++ sender_email in
  search self query max_results.

Definition search_by_subject (self : searcher) (subject_text : str)
           (max_results : Z) : M (list search_item * searcher) :=
  let query := py "subject:" ++ subject_text in
  search self query max_results.

(** [" ".join(l)] *)
Fixpoint join_space (l : list str) : str :=
  match l with
  | [] => []
  | [x] => x
  | x :: rest => x ++ py " " ++ join_space rest
  end.

(** [if date: query_parts.append(f"{key}{date}")] *)
Definition append_bound (key : string) (date : option str)
           (query_parts : list str) : list str :=
  match date with
  | Some d => if Py.truthy d then query_parts ++ [py key ++ d]
              else query_parts
  | None => query_parts
  end.

(** The [ValueError] is one of the exceptions [Error] stands for. *)
Definition search_by_date_range (self : searcher)
           (after_date before_date : option str) (max_results : Z)
  : M (list search_item * searcher) :=
  let query_parts := [] in
  let query_parts := append_bound "after:" after_date query_parts in
  let query_parts := append_bound "before:" before_date query_parts in
  match query_parts with
  | [] =>
    raise (Error (py "At least one date (after_date or before_date) "
                  ++ py "must be provided"))
  | _ :: _ =>
    let query := join_space query_parts in
    search self query max_results
  end.

Definition search_with_attachments (self : searcher) (max_results : Z)
  : M (list search_item * searcher) :=
  let query := py "has:attachment" in
  search self query max_results.

Definition search_unread (self : searcher) (max_results : Z)
  : M (list search_item * searcher) :=
  let query := py "is:unread" in
  search self query max_results.

Definition get_message_count (self : searcher) (query : str)
  : M (Z * searcher) :=
  self ← ensure_service self;
  total_count ←
    try_except
      (result ← list_messages E query 1;
       let total_count := default 0%Z (lr_resultSizeEstimate result) in
       print (py "Query '" ++ query ++ py "' matches approximately "
              ++ Py.str_of_Z total_count ++ py " messages");;
       mret total_count)
      (fun e =>
         print (py "Error getting message count: " ++ exn_str e);;
         mret 0%Z);
  mret (total_count, self).

End methods.
End GmailSearcher.

(** ** [gmail_retriever.py] *)

(** A [GmailRetriever] object. *)
Record retriever := Retriever {
  r_auth : authenticator;
  r_service : option service
}.

(** The dictionary [export_search_results] returns; a key that a return
    statement leaves out is [None]. *)
Record summary := Summary {
  sum_search_query : option str;
  sum_message_count : option nat;
  sum_files_created : option (list str);
  sum_timestamp : option str
}.

Module GmailRetriever.
Section methods.

Context {L : DatetimeLib} (E : env).

(** [__init__(authenticator=None, credentials_file=None)] *)
Definition init (authenticator : option authenticator)
           (credentials_file : option str) : retriever :=
  match authenticator with
  | Some a => Retriever a (GmailAuthenticator.get_service a)
  | None =>
    let credentials_file :=
      or_default credentials_file (py "../credentials.json") in
    let token_file := py "../token.pickle" in
    Retriever (GmailAuthenticator.init credentials_file token_file) None
  end.

Definition authenticate (self : retriever) : M (service * retriever) :=
  match r_service self with
  | Some service => mret (service, self)
  | None =>
    '(service, auth) ← GmailAuthenticator.authenticate E (r_auth self);
    mret (service, Retriever auth (Some service))
  end.

(** [if not self.service: self.authenticate()] *)
Definition ensure_service (self : retriever) : M retriever :=
  match r_service self with
  | Some _ => mret self
  | None => '(_, self') ← authenticate self; mret self'
  end.

Definition get_full_message (self : retriever) (message_id : str)
  : M (option message * retriever) :=
  self ← ensure_service self;
  message ←
    try_except
      (message ← get_message E message_id FormatFull; mret (Some message))
      (fun e =>
         print (py "Error retrieving message " ++ message_id ++ py ": "
                ++ exn_str e);;
         mret None);
  mret (message, self).

(** [for i, msg_id in enumerate(message_ids)], from index [i] on. A
    message resource that came back has its ['id'] and is not an empty
    dictionary, so that [if message:] holds for it. *)
Fixpoint retrieve_loop (self : retriever) (show_progress : bool)
         (total i : nat) (message_ids : list str) (messages : list message)
  : M (list message * retriever) :=
  match message_ids with
  | [] => mret (messages, self)
  | msg_id :: rest =>
    (if show_progress && ((i + 1) mod 10 =? 0)%nat then
       print (py "Retrieved " ++ Py.str_of_nat (i + 1) ++ py "/"
              ++ Py.str_of_nat total ++ py " messages...")
     else mret tt);;
    '(message, self) ← get_full_message self msg_id;
    retrieve_loop self show_progress total (S i) rest
                  (match message with
                   | Some m => messages ++ [m]
                   | None => messages
                   end)
  end.

Definition get_multiple_messages (self : retriever)
           (message_ids : list str) (show_progress : bool)
  : M (list message * retriever) :=
  self ← ensure_service self;
  let total := length message_ids in
  (if show_progress
   then print (py "Retrieving " ++ Py.str_of_nat total ++ py " messages...")
   else mret tt);;
  '(messages, self) ←
    retrieve_loop self show_progress total 0 message_ids [];
  (if show_progress
   then print (py "Successfully retrieved "
               ++ Py.str_of_nat (length messages) ++ py " messages")
   else mret tt);;
  mret (messages, self).

Definition saved_line (messages : list message) (filename : str) : str :=
  py "Saved " ++ Py.str_of_nat (length messages) ++ py " messages to "
  ++ filename.

Definition save_messages_json (messages : list message) (filename : str)
  : M unit :=
  try_except
    (open_w E filename;;
     write filename (JsonDump messages);;
     print (saved_line messages filename))
    (fun e => print (py "Error saving to JSON: " ++ exn_str e)).

(** [body[:200] + '...' if len(body) > 200 else body] *)
Definition body_preview (body : str) : str :=
  if (200 <? length body)%nat
  then Py.slice_to 200 body ++ py "..."
  else body.

(** One turn of the loop over the messages. *)
Definition csv_row_of (message : message) : csv_row :=
  let metadata := extract_message_metadata message in
  let body := extract_email_body message in
  {| row_metadata := metadata; row_body_preview := body_preview body |}.

(** The file is opened before the list is looked at; the [return] in
    the empty case leaves the function from inside the [with] block. *)
Definition save_messages_csv (messages : list message) (filename : str)
  : M unit :=
  try_except
    (open_w E filename;;
     match messages with
     | [] => print (py "No messages to save")
     | _ :: _ =>
       let fieldnames := metadata_keys ++ [py "body_preview"] in
       write filename (CsvHeader fieldnames);;
       for_each messages
         (fun message => write filename (CsvRow (csv_row_of message)));;
       print (saved_line messages filename)
     end)
    (fun e => print (py "Error saving to CSV: " ++ exn_str e)).

Definition NL : str := [10%N].

(** The writes of one turn of the loop of [save_messages_text]. *)
Definition text_block (total i : nat) (message : message) : list str :=
  let metadata := extract_message_metadata message in
  let body := extract_email_body message in
  [ repeat 61%N 60 ++ NL;
    py "MESSAGE " ++ Py.str_of_nat i ++ py " of " ++ Py.str_of_nat total
    ++ NL;
    repeat 61%N 60 ++ NL;
    py "ID: " ++ md_id metadata ++ NL;
    py "From: " ++ md_from metadata ++ NL;
    py "To: " ++ md_to metadata ++ NL;
    py "Subject: " ++ md_subject metadata ++ NL;
    py "Date: " ++ default (py "None") (md_date metadata) ++ NL ]
  ++ (match md_attachments metadata with
      | [] => []
      | _ :: _ =>
        [ py "Attachments: "
          ++ Py.str_of_nat (length (md_attachments metadata))
          ++ py " files" ++ NL ]
      end)
  ++ [ NL ++ py "Body:" ++ NL ++ repeat 45%N 40 ++ NL;
       body;
       NL ++ NL ].

(** [for i, message in enumerate(messages, 1)], from index [i] on. *)
Fixpoint text_loop (filename : str) (total i : nat)
         (messages : list message) : M unit :=
  match messages with
  | [] => mret tt
  | message :: rest =>
    for_each (text_block total i message)
             (fun s => write filename (Text s));;
    text_loop filename total (S i) rest
  end.

Definition save_messages_text (messages : list message) (filename : str)
  : M unit :=
  try_except
    (open_w E filename;;
     text_loop filename (length messages) 1 messages;;
     print (saved_line messages filename))
    (fun e => print (py "Error saving to text: " ++ exn_str e)).

(** [", ".join(l)] *)
Fixpoint join_comma (l : list str) : str :=
  match l with
  | [] => []
  | [x] => x
  | x :: rest => x ++ py ", " ++ join_comma rest
  end.

(** The searcher is built on [self.auth], the very object the retriever
    holds: what the search does to it is seen by the retriever
    afterwards. *)
Definition export_search_results (self : retriever) (search_query : str)
           (max_results : Z) (output_prefix : str)
  : M (summary * retriever) :=
  print (py "Starting export for query: '" ++ search_query ++ py "'");;
  let searcher := GmailSearcher.init (Some (r_auth self)) None in
  '(search_results, searcher) ←
    GmailSearcher.search E searcher search_query max_results;
  let self := Retriever (s_auth searcher) (r_service self) in
  match search_results with
  | [] =>
    print (py "No messages found to export");;
    mret ({| sum_search_query := None;
             sum_message_count := Some 0%nat;
             sum_files_created := Some [];
             sum_timestamp := None |}, self)
  | _ :: _ =>
    let message_ids := map si_id search_results in
    '(full_messages, self) ← get_multiple_messages self message_ids true;
    let timestamp := Strftime.stamp (now E) in
    let files_created := [] in
    let json_file := output_prefix ++ py "_" ++ timestamp ++ py ".json" in
    save_messages_json full_messages json_file;;
    let files_created := files_created ++ [json_file] in
    let csv_file := output_prefix ++ py "_" ++ timestamp ++ py ".csv" in
    save_messages_csv full_messages csv_file;;
    let files_created := files_created ++ [csv_file] in
    let text_file := output_prefix ++ py "_" ++ timestamp ++ py ".txt" in
    save_messages_text full_messages text_file;;
    let files_created := files_created ++ [text_file] in
    let summary :=
      {| sum_search_query := Some search_query;
         sum_message_count := Some (length full_messages);
         sum_files_created := Some files_created;
         sum_timestamp := Some timestamp |} in
    print (NL ++ py "Export complete!");;
    print (py "Messages exported: "
           ++ Py.str_of_nat (length full_messages));;
    print (py "Files created: " ++ join_comma files_created);;
    mret (summary, self)
  end.

Definition default_max_results : Z := 100.
Definition default_output_prefix : str := py "gmail_export".

End methods.
End GmailRetriever.

(** ** Notions used in the statements *)

(** What one node contributes to the attachment list. *)
Definition attachment_of (part : part) : list attachment :=
  match part_filename part with
  | Some filename => if Py.truthy filename then [describe part filename] else []
  | None => []
  end.

(** The hit that an item was built from, with the answer of the remote
    side to the metadata request for it, as logged. *)
Definition built_from (log : list event) (item : search_item) : Prop :=
  exists msg message_data,
    In (MessagesGet (si_id item) FormatMetadata (Returns message_data)) log
    /\ GmailSearcher.message_info msg message_data = Returns item.

(** No entry of the header list carries the name. *)
Definition lacks (name : string) (headers : list header) : Prop :=
  Forall (fun h => h_name h <> py name) headers.

(** The world once the opening line of [export_search_results] is
    printed: where its search starts. *)
Definition started (search_query : str) (w : world) : world :=
  World (fs w) (net w)
        (stdout w ++ [py "Starting export for query: '" ++ search_query
                      ++ py "'"]).

(** The three paths of one export, in the order they are written. *)
Definition export_paths (output_prefix timestamp : str) : list str :=
  [output_prefix ++ py "_" ++ timestamp ++ py ".json";
   output_prefix ++ py "_" ++ timestamp ++ py ".csv";
   output_prefix ++ py "_" ++ timestamp ++ py ".txt"].

(** The search that [export_search_results] runs. *)
Definition export_search (E : env) (self : retriever) (search_query : str)
           (max_results : Z) (w : world)
  : outcome (list search_item * searcher) * world :=
  GmailSearcher.search E (GmailSearcher.init (Some (r_auth self)) None)
                       search_query max_results (started search_query w).

(** The request for a full message: the retrieval of its content. *)
Definition retrieval (ev : event) : Prop :=
  match ev with
  | MessagesGet _ FormatFull _ => True
  | _ => False
  end.

(** Every run of [m] extends the log, by events that satisfy [P] only. *)
Definition logs_only (P : event -> Prop) {A} (m : M A) : Prop :=
  forall w r w', m w = (r, w') ->
                 exists evs, net w' = net w ++ evs /\ Forall P evs.

(** Every run of [m] leaves the files at the paths outside [allowed] as
    they were. *)
Definition writes_only (allowed : str -> Prop) {A} (m : M A) : Prop :=
  forall w r w', m w = (r, w') ->
                 forall path, ~ allowed path -> fs w' !! path = fs w !! path.

(** [m] returns from every world: it never raises. *)
Definition never_raises {A} (m : M A) : Prop :=
  forall w, exists a w', m w = (Returns a, w').

(** The metadata requests of a search loop that ran to its end, one per
    listed message, with the answers. *)
Definition metadata_requests (messages : list message_ref)
           (answers : list message) : list event :=
  zip_with (fun msg data =>
              MessagesGet (ref_id msg) FormatMetadata (Returns data))
           messages answers.

(** The answers of the remote side to full-message requests for
    [message_ids], made one after the other from the log [log] on. *)
Fixpoint full_answers (E : env) (log : list event) (message_ids : list str)
  : list (outcome message) :=
  match message_ids with
  | [] => []
  | id :: rest =>
    let r := messages_get E log id FormatFull in
    r :: full_answers E (log ++ [MessagesGet id FormatFull r]) rest
  end.

(** The requests that go with the answers. *)
Definition full_requests (message_ids : list str)
           (answers : list (outcome message)) : list event :=
  zip_with (fun id r => MessagesGet id FormatFull r) message_ids answers.

(** The messages among the answers. *)
Definition returned (answers : list (outcome message)) : list message :=
  omap (fun r => match r with Returns m => Some m | Raises _ => None end)
       answers.

(** A bound that counts as not given: [None] or the empty string. *)
Definition absent (date : option str) : Prop :=
  date = None \/ date = Some [].

(** What follows the first [c] of a string, if there is one. *)
Fixpoint after_first (c : N) (s : str) : option str :=
  match s with
  | [] => None
  | x :: rest => if (x =? c)%N then Some rest else after_first c rest
  end.

(** The Date header as the description of the date handling reads it,
    to be compared with [date_text]: without a comment in round brackets
    at its end, and without the white space around what is left. A header
    that does not end in [")"] has no such comment. *)
Definition without_trailing_comment (date_str : str) : str :=
  let text := Py.strip date_str in
  match rev text with
  | 41%N :: before_close =>
    match after_first 40%N before_close with
    | Some before_open => Py.strip (rev before_open)
    | None => text
    end
  | _ => text
  end.

(** ** Sample inputs *)

Module Demo.

#[local] Open Scope string_scope.

Definition leaf (mime : string) (data : string) : part :=
  Part None (Some (py mime)) None
       (Some (Body (Some (py data)) (Some 1%Z))) None.

Definition multipart (mime : string) (ps : list part) : part :=
  Part (Some []) (Some (py mime)) None (Some (Body None (Some 0%Z)))
       (Some ps).

Definition file_part (name mime : string) (size : Z) : part :=
  Part (Some (py name)) (Some (py mime)) None
       (Some (Body None (Some size))) None.

Definition with_headers (hs : list (string * string)) (p : part) : part :=
  Part (part_filename p) (part_mimeType p)
       (Some (map (fun nv => Header (py (fst nv)) (py (snd nv))) hs))
       (part_body p) (part_parts p).

Definition mail (id : string) (payload : part) : message :=
  Message (py id) (py ("t-" ++ id)) (Some [py "INBOX"]) (Some (py "hi"))
          (Some payload).

(** text/plain "A", then a multipart holding text/plain "B". *)
Definition nested_text : message :=
  mail "m1"
       (multipart "multipart/mixed"
          [leaf "text/plain" "QQ==";
           multipart "multipart/alternative" [leaf "text/plain" "Qg=="]]).

(** An attachment two levels down. *)
Definition nested_attachment : message :=
  mail "m2"
       (multipart "multipart/mixed"
          [leaf "text/plain" "QQ==";
           multipart "multipart/related"
             [file_part "report.pdf" "application/pdf" 1234]]).

(** A message that is nothing but one attached file: the payload is
    the part that carries the file name. *)
Definition bare_attachment : message :=
  mail "m3" (file_part "scan.pdf" "application/pdf" 52417).

Definition dated (date : string) : message :=
  mail "m4" (with_headers [("From", "a@example.com"); ("Date", date)]
                          (leaf "text/plain" "QQ==")).

End Demo.

(** ** Sample environments *)

Module Lab.

#[local] Open Scope string_scope.

Definition clock : naive_datetime := NaiveDatetime 2024 3 9 7 5 0.

Definition fresh : credentials := Credentials true false (Some (py "1//r")).

Definition find_message (box : list message) (id : str) : outcome message :=
  match find (fun m => bool_decide (msg_id m = id)) box with
  | Some m => Returns m
  | None => Raises (Error (py "HttpError 404"))
  end.

(** A mailbox in which every query matches every message, on a disk
    that accepts writes or refuses them all. *)
Definition mailbox (box : list message) (disk_ok : bool) : env :=
  {| open_error := fun _ =>
       if disk_ok then None else Some (py "[Errno 13] Permission denied");
     messages_list := fun _ _ _ =>
       Returns
         (ListResponse
            (match box with
             | [] => None
             | _ => Some (map (fun m => MessageRef (msg_id m)
                                                   (msg_threadId m)) box)
             end)
            (Some (Z.of_nat (length box))));
     messages_get := fun _ id _ => find_message box id;
     token_refresh := fun _ _ => Raises (RefreshError (py "invalid_grant"));
     consent_flow := fun _ _ => Returns fresh;
     service_build := fun _ c => Returns (Service c);
     now := clock |}.

Definition empty_world : world := World ∅ [] [].

(** A disk that holds the client secret. *)
Definition installed : world :=
  World {[ py "credentials.json" := [Text (py "{}")] ]} [] [].

Definition new_auth : authenticator :=
  GmailAuthenticator.init (py "credentials.json") (py "token.pickle").

Definition signed_in : authenticator :=
  Authenticator (py "credentials.json") (py "token.pickle")
                (Some (Service fresh)).

(** A retriever built on an authenticator that has signed in. *)
Definition ready : retriever := GmailRetriever.init (Some signed_in) None.

(** A message without any header. *)
Definition bare : message := Demo.mail "m5" (Demo.leaf "text/plain" "QQ==").

Definition long_body : message :=
  Message (py "m6") (py "t-m6") None None
          (Some (Part None (Some (py "text/plain")) None
                      (Some (Body (Some (repeat 81%N 400)) None)) None)).

End Lab.

(** ** More sample worlds and environments *)

Module Cases.

#[local] Open Scope string_scope.

(** A credential that has expired and can be refreshed. *)
Definition stale : credentials := Credentials false true (Some (py "1//old")).

(** What a refresh of [stale] gives when it succeeds. *)
Definition renewed : credentials := Credentials true false (Some (py "1//old")).

Definition disk (token : credentials) : world :=
  World (<[py "token.pickle" := [Pickle token]]>
           {[ py "credentials.json" := [Text (py "{}")] ]}) [] [].

(** The client secret and a valid stored credential. *)
Definition returning : world := disk Lab.fresh.

(** The client secret and an expired stored credential. *)
Definition lapsed : world := disk stale.

(** [Lab.mailbox] with another answer to token refreshes. *)
Definition with_refresh (answer : outcome credentials) (E : env) : env :=
  {| open_error := open_error E;
     messages_list := messages_list E;
     messages_get := messages_get E;
     token_refresh := fun _ _ => answer;
     consent_flow := consent_flow E;
     service_build := service_build E;
     now := now E |}.

(** A mailbox whose list call fails. *)
Definition unreachable : env :=
  {| open_error := fun _ => None;
     messages_list := fun _ _ _ => Raises (Error (py "HttpError 503"));
     messages_get := fun _ _ _ => Raises (Error (py "HttpError 503"));
     token_refresh := fun _ _ => Raises (RefreshError (py "invalid_grant"));
     consent_flow := fun _ _ => Returns Lab.fresh;
     service_build := fun _ c => Returns (Service c);
     now := Lab.clock |}.

(** A mailbox that lists one message more than it can deliver. *)
Definition dangling (box : list message) : env :=
  {| open_error := fun _ => None;
     messages_list := fun _ _ _ =>
       Returns (ListResponse
                  (Some (map (fun m => MessageRef (msg_id m) (msg_threadId m))
                             box ++ [MessageRef (py "gone") (py "t-gone")])%list)
                  None);
     messages_get := fun _ id _ => Lab.find_message box id;
     token_refresh := fun _ _ => Raises (RefreshError (py "invalid_grant"));
     consent_flow := fun _ _ => Returns Lab.fresh;
     service_build := fun _ c => Returns (Service c);
     now := Lab.clock |}.

Definition searcher_ready : searcher :=
  GmailSearcher.init (Some Lab.signed_in) None.

End Cases.

(** * Facts *)

(** ** The runtime library on examples *)

Example py_strip_demo :
  Py.strip (py "  Mon, 02 Jan  ") = py "Mon, 02 Jan".
Proof. reflexivity. Qed.

Example py_split_demo :
  Py.split_head (py " (") (py "12:00 +0000 (UTC) (x)") = py "12:00 +0000".
Proof. reflexivity. Qed.

Example py_b64_demo :
  Py.urlsafe_b64decode (py "SGVsbG8sIHdvcmxkIQ==") = Some (py "Hello, world!").
Proof. reflexivity. Qed.

Example py_b64_bad_padding : Py.urlsafe_b64decode (py "QQ=") = None.
Proof. reflexivity. Qed.

Example py_utf8_demo :
  Py.utf8_decode_replace [72; 195; 169; 255; 226; 130]%N
  = [72; 233; 65533; 65533]%N.
Proof. reflexivity. Qed.

Example py_strip_tags_demo :
  Py.strip_tags (py "<p>Hi <b>there</b></p> a<>b < c") = py "Hi there a<>b < c".
Proof. reflexivity. Qed.

Example strftime_demo :
  Strftime.stamp (NaiveDatetime 2024 3 9 7 5 0) = py "20240309_070500".
Proof. reflexivity. Qed.

Example strptime_demo :
  isoformat <$> strptime (DatetimeLib := Rfc2822.reference)
                         (py "Mon, 02 Jan 2023 15:04:05 +0000")
  = Some (py "2023-01-02T15:04:05+00:00").
Proof. reflexivity. Qed.

Example strptime_demo_offset :
  isoformat <$> strptime (DatetimeLib := Rfc2822.reference)
                         (py "tue,  7 Feb 2023 9:04:05 -07:30")
  = Some (py "2023-02-07T09:04:05-07:30").
Proof. reflexivity. Qed.

Example strptime_demo_bad :
  strptime (DatetimeLib := Rfc2822.reference) (py "02 Jan 2023 15:04:05") = None
  /\ strptime (DatetimeLib := Rfc2822.reference)
              (py "Mon, 30 Feb 2023 15:04:05 +0000") = None
  /\ strptime (DatetimeLib := Rfc2822.reference)
              (py "Mon, 02 Jan 2023 15:04:05 +0000 (UTC)") = None.
Proof. repeat split; reflexivity. Qed.

(** A decimal digit need not be ASCII: the day [1] followed by U+0662,
    the Arabic-Indic digit two, is the twelfth. *)
Example strptime_demo_decimal :
  isoformat <$> strptime (DatetimeLib := Rfc2822.reference)
                         (py "Mon, 1" ++ [1634%N]
                             ++ py " Jan 2023 15:04:05 +0000")
  = Some (py "2023-01-12T15:04:05+00:00").
Proof. reflexivity. Qed.

Example without_trailing_comment_demo :
  without_trailing_comment (py "Mon, 02 Jan 2023 15:04:05 +0000 (UTC) ")
  = py "Mon, 02 Jan 2023 15:04:05 +0000"
  /\ without_trailing_comment (py "Mon, 02 Jan 2023 15:04:05 +0000")
     = py "Mon, 02 Jan 2023 15:04:05 +0000"
  /\ without_trailing_comment (py "next (or this) week")
     = py "next (or this) week".
Proof. repeat split; reflexivity. Qed.

(** ** The part tree *)

(** Induction over the MIME tree, with the hypothesis for every child. *)
Lemma part_tree_ind (P : part -> Prop) :
  (forall p, Forall P (children p) -> P p) -> forall p, P p.
Proof.
  intros step.
  fix IH 1. intros [fn mt hs b ps]. apply step. unfold children; simpl.
  destruct ps as [ps|]; simpl; [|constructor].
  induction ps as [|q qs IHqs]; constructor; [apply IH | exact IHqs].
Qed.

Lemma fold_left_append {A B} (f : A -> list B) (l : list A) (acc : list B) :
  fold_left (fun acc x => acc ++ f x) l acc = acc ++ flat_map f l.
Proof.
  revert acc. induction l as [|x l IH]; intros acc; simpl.
  - symmetry. apply app_nil_r.
  - rewrite IH. symmetry. apply app_assoc.
Qed.

Lemma flat_map_Forall_ext {A B} (f g : A -> list B) (l : list A) :
  Forall (fun x => f x = g x) l -> flat_map f l = flat_map g l.
Proof.
  induction 1 as [|x l Hx _ IH]; simpl; [reflexivity|].
  rewrite Hx, IH. reflexivity.
Qed.

Lemma flat_map_flat_map {A B C} (f : A -> list B) (g : B -> list C) l :
  flat_map g (flat_map f l) = flat_map (fun x => flat_map g (f x)) l.
Proof.
  induction l as [|x l IH]; simpl; [reflexivity|].
  rewrite flat_map_app, IH. reflexivity.
Qed.

Lemma descendants_children (p : part) :
  descendants p = flat_map preorder (children p).
Proof. destruct p as [fn mt hs b [ps|]]; reflexivity. Qed.

Lemma extract_from_payload_children (p : part) :
  extract_from_payload p
  = own_text p ++ flat_map extract_from_payload (children p).
Proof.
  destruct p as [fn mt hs b [ps|]]; unfold children;
    cbn [extract_from_payload part_parts default from_option id].
  - apply fold_left_append.
  - symmetry. apply app_nil_r.
Qed.

Lemma extract_from_payload_flat (p : part) :
  extract_from_payload p = flat_map own_text (preorder p).
Proof.
  induction p as [p IH] using part_tree_ind.
  rewrite extract_from_payload_children.
  unfold preorder at 1. cbn [flat_map]. f_equal.
  rewrite descendants_children, flat_map_flat_map.
  apply flat_map_Forall_ext, IH.
Qed.

Lemma below_descendants (p q : part) : below p q <-> In q (descendants p).
Proof.
  split.
  - induction 1 as [p q Hq | p c q Hc _ IH];
      rewrite descendants_children; apply in_flat_map.
    + exists q. split; [exact Hq | left; reflexivity].
    + exists c. split; [exact Hc | right; exact IH].
  - revert q. induction p as [p IH] using part_tree_ind. intros q.
    rewrite descendants_children, in_flat_map. intros (c & Hc & Hq).
    destruct Hq as [-> | Hq]; [apply below_child, Hc|].
    apply below_deeper with c; [exact Hc|].
    rewrite Forall_forall in IH. apply (IH c); [|exact Hq].
    apply list_elem_of_In, Hc.
Qed.

Lemma find_attachments_flat (p : part) (acc : list attachment) :
  find_attachments p acc = acc ++ flat_map attachment_of (descendants p).
Proof.
  revert acc. induction p as [p IH] using part_tree_ind. intros acc.
  rewrite descendants_children.
  destruct p as [fn mt hs b [ps|]]; unfold children in *;
    cbn [find_attachments part_parts default from_option id flat_map] in *;
    [|symmetry; apply app_nil_r].
  revert acc. induction ps as [|q qs IHqs]; intros acc;
    cbn [fold_left flat_map].
  - symmetry. apply app_nil_r.
  - inversion IH as [|? ? Hq Hqs]; subst.
    rewrite IHqs by exact Hqs. rewrite Hq.
    unfold preorder. cbn [flat_map]. rewrite flat_map_app. cbn [flat_map].
    unfold attachment_of.
    destruct (part_filename q) as [fn'|]; [destruct (Py.truthy fn')|];
      rewrite <- ?app_assoc; reflexivity.
Qed.

Example extract_hello :
  extract_email_body
    (Demo.mail "m0" (Demo.leaf "text/plain" "SGVsbG8sIHdvcmxkIQ=="))
  = py "Hello, world!".
Proof. reflexivity. Qed.

Example extract_html :
  extract_email_body
    (Demo.mail "m0" (Demo.leaf "text/html" "PHA-SGkgPGI-dGhlcmU8L2I-PC9wPg=="))
  = py "Hi there".
Proof. reflexivity. Qed.

Example metadata_nested_attachment :
  md_attachments
    (extract_message_metadata (L := Rfc2822.reference) Demo.nested_attachment)
  = [Attachment (py "report.pdf") (py "application/pdf") 1234].
Proof. reflexivity. Qed.

Example metadata_date_parsed :
  md_date (extract_message_metadata (L := Rfc2822.reference)
             (Demo.dated "Mon, 02 Jan 2023 15:04:05 +0000 (UTC)"))
  = Some (py "2023-01-02T15:04:05+00:00").
Proof. vm_compute. reflexivity. Qed.

Example metadata_date_raw_fallback :
  md_date (extract_message_metadata (L := Rfc2822.reference)
             (Demo.dated "yesterday at noon"))
  = Some (py "yesterday at noon").
Proof. vm_compute. reflexivity. Qed.

(** ** Body extraction *)

(** C4. [extract_email_body] is the concatenation, in depth-first
    pre-order over the part tree, of what each node contributes: the text
    of a node comes before the text of its children, a text/plain node
    contributes its base64url-decoded body read as UTF-8 with U+FFFD for
    what cannot be decoded, and the message made of text/plain "A" followed
    by a multipart holding text/plain "B" gives exactly "AB". *)
Theorem extract_email_body_preorder :
  (forall payload,
      extract_from_payload payload = flat_map own_text (preorder payload))
  /\ (forall payload,
         extract_from_payload payload
         = own_text payload
           ++ flat_map extract_from_payload (children payload))
  /\ (forall filename headers data size parts,
         own_text (Part filename (Some (py "text/plain")) headers
                        (Some (Body (Some data) size)) parts)
         = match Py.urlsafe_b64decode data with
           | Some raw => Py.utf8_decode_replace raw
           | None => []
           end)
  /\ (forall message,
         extract_email_body message
         = match msg_payload message with
           | Some payload => flat_map own_text (preorder payload)
           | None => []
           end)
  /\ extract_email_body
       (Demo.mail "m0" (Demo.leaf "text/plain" "Qf9C"))
     = [65; Py.REPLACEMENT; 66]%N
  /\ extract_email_body Demo.nested_text = py "AB".
Proof.
  split; [exact extract_from_payload_flat|].
  split; [exact extract_from_payload_children|].
  split; [reflexivity|].
  split; [|split; reflexivity].
  intros [i t l s [payload|]]; cbn [extract_email_body msg_payload];
    [apply extract_from_payload_flat | reflexivity].
Qed.

(** ** Metadata extraction *)

Lemma header_dict_app (hs : list header) (d : gmap str str) (k : str) :
  fold_left (fun d h => <[h_name h := h_value h]> d) hs d !! k
  = match header_dict hs !! k with
    | Some v => Some v
    | None => d !! k
    end.
Proof.
  unfold header_dict.
  revert d. induction hs as [|h hs IH]; intros d; cbn [fold_left].
  - rewrite lookup_empty. reflexivity.
  - rewrite (IH (<[h_name h := h_value h]> d)).
    rewrite (IH (<[h_name h := h_value h]> ∅)).
    destruct (fold_left _ hs ∅ !! k); [reflexivity|].
    rewrite !lookup_insert. case_decide; [reflexivity|].
    rewrite lookup_empty. reflexivity.
Qed.

(** A header name is missing from the lookup exactly when no entry of the
    list carries it. *)
Lemma header_dict_None (hs : list header) (k : str) :
  header_dict hs !! k = None <-> Forall (fun h => h_name h <> k) hs.
Proof.
  unfold header_dict. induction hs as [|h hs IH]; cbn [fold_left].
  - rewrite lookup_empty. split; [constructor | reflexivity].
  - rewrite header_dict_app, lookup_insert, lookup_empty. unfold header_dict.
    destruct (fold_left _ hs ∅ !! k) eqn:Hk.
    + split; [discriminate|]. intros H. inversion H; subst.
      destruct IH as [_ IH]. discriminate (IH ltac:(assumption)).
    + case_decide as Hn; split; try discriminate.
      * intros H. inversion H; subst. contradiction.
      * intros _. constructor; [exact Hn | apply IH; reflexivity].
      * reflexivity.
Qed.

(** When a name repeats, the last entry wins. *)
Lemma header_dict_last (hs : list header) (h : header) :
  header_dict (hs ++ [h]) !! h_name h = Some (h_value h).
Proof.
  unfold header_dict. rewrite fold_left_app. cbn [fold_left].
  apply lookup_insert_eq.
Qed.

(** The attachments of a message are what the nodes below the payload
    contribute, in pre-order; the count is the length of the list. *)
Lemma metadata_attachments {L : DatetimeLib} (message : message) :
  md_attachments (extract_message_metadata message)
  = match msg_payload message with
    | Some payload => flat_map attachment_of (descendants payload)
    | None => []
    end
  /\ md_attachment_count (extract_message_metadata message)
     = length (md_attachments (extract_message_metadata message)).
Proof.
  split; [|reflexivity].
  cbn [extract_message_metadata md_attachments].
  destruct (msg_payload message) as [payload|]; [|reflexivity].
  apply (find_attachments_flat payload []).
Qed.

(** Every node below the payload that carries a non-empty file name is
    recorded, whatever its depth. *)
Lemma nested_attachments_recorded {L : DatetimeLib} (message : message)
      (payload q : part) (filename : str) :
  msg_payload message = Some payload ->
  below payload q ->
  part_filename q = Some filename ->
  filename <> [] ->
  In (Attachment filename (default [] (part_mimeType q))
                 (default 0%Z (part_body q ≫= body_size)))
     (md_attachments (extract_message_metadata message)).
Proof.
  intros Hp Hq Hf Hne.
  destruct (metadata_attachments message) as [-> _]. rewrite Hp.
  apply in_flat_map. exists q. split; [apply below_descendants, Hq|].
  unfold attachment_of. rewrite Hf.
  destruct filename; [contradiction | left; reflexivity].
Qed.

(** C3, at a message whose payload is itself the part with the file
    name: [find_attachments] looks at the elements of ['parts'] lists
    only, never at the node it is called on, so the file of
    [Demo.bare_attachment] is not recorded and the count is 0. *)
Theorem top_level_attachment_not_recorded (L : DatetimeLib) :
  (msg_payload Demo.bare_attachment ≫= part_filename) = Some (py "scan.pdf")
  /\ md_attachments (extract_message_metadata Demo.bare_attachment) = []
  /\ md_attachment_count (extract_message_metadata Demo.bare_attachment) = 0.
Proof. repeat split. Qed.

(** C5, as the code has it. The [date] field is a total function of the
    Date header: for a non-empty header whose text (cut at the first
    [" ("] and stripped) the parser accepts, the ISO-8601 rendering; for a
    non-empty header the parser rejects, the raw header unchanged; for a
    header that is missing or empty, nothing ([None]), with [date_raw] the
    empty string. [date_raw] is the header in every case. *)
Theorem date_field_three_way {L : DatetimeLib} (message : message) :
  let headers := payload_headers (msg_payload message) in
  let md := extract_message_metadata message in
  (forall raw dt,
      header_dict headers !! py "Date" = Some raw -> raw <> [] ->
      strptime (date_text raw) = Some dt ->
      md_date md = Some (isoformat dt) /\ md_date_raw md = raw)
  /\ (forall raw,
         header_dict headers !! py "Date" = Some raw -> raw <> [] ->
         strptime (date_text raw) = None ->
         md_date md = Some raw /\ md_date_raw md = raw)
  /\ (Forall (fun h => h_name h <> py "Date") headers
      \/ header_dict headers !! py "Date" = Some [] ->
      md_date md = None /\ md_date_raw md = []).
Proof.
  cbn zeta. cbn [extract_message_metadata md_date md_date_raw].
  unfold parse_date.
  split; [|split].
  - intros raw dt -> Hne Hparse. cbn [default from_option id].
    destruct raw as [|c raw]; [contradiction|]. cbn [Py.truthy].
    rewrite Hparse. split; reflexivity.
  - intros raw -> Hne Hparse. cbn [default from_option id].
    destruct raw as [|c raw]; [contradiction|]. cbn [Py.truthy].
    rewrite Hparse. split; reflexivity.
  - intros [Hnone | ->]; [|split; reflexivity].
    apply header_dict_None in Hnone. rewrite Hnone. split; reflexivity.
Qed.

Lemma date_field_three_way_witness :
  md_date (extract_message_metadata (L := Rfc2822.reference)
             (Demo.dated "Mon, 02 Jan 2023 15:04:05 +0000"))
  = Some (py "2023-01-02T15:04:05+00:00")
  /\ md_date (extract_message_metadata (L := Rfc2822.reference)
                (Demo.dated "next week"))
     = Some (py "next week")
  /\ md_date (extract_message_metadata (L := Rfc2822.reference)
                Demo.nested_text)
     = None.
Proof.
  split; [|split].
  - destruct (date_field_three_way (L := Rfc2822.reference)
                (Demo.dated "Mon, 02 Jan 2023 15:04:05 +0000"))
      as (parsed & _ & _).
    refine (proj1 (parsed (py "Mon, 02 Jan 2023 15:04:05 +0000")
                          (Rfc2822.Aware 2023 1 2 15 4 5 false 0 0) _ _ _)).
    + vm_compute. reflexivity.
    + discriminate.
    + vm_compute. reflexivity.
  - destruct (date_field_three_way (L := Rfc2822.reference)
                (Demo.dated "next week")) as (_ & raw & _).
    refine (proj1 (raw (py "next week") _ _ _)).
    + vm_compute. reflexivity.
    + discriminate.
    + vm_compute. reflexivity.
  - destruct (date_field_three_way (L := Rfc2822.reference) Demo.nested_text)
      as (_ & _ & missing).
    refine (proj1 (missing (or_introl _))). vm_compute. constructor.
Defined.

(** C5 as stated fails at three Date headers, one for each change that
    the amended claim makes.

    The header is present and empty: the parser rejects the empty text, so
    the claim gives the raw header (the empty string) for the [date]
    field, while the code does not try to parse an empty header and leaves
    the field [None].

    The header goes on after its comment: it does not end in a comment, so
    nothing is stripped, the parser rejects it and the claim gives the raw
    header; the code parses what precedes the first [" ("] and gives the
    ISO-8601 date.

    The header ends in a comment that no space precedes: without the
    comment the parser accepts it and the claim gives the ISO-8601 date;
    the code finds no [" ("] to cut at, the parser rejects the whole
    header and the field is the raw header. *)
Lemma date_header_counterexample :
  (let message := Demo.dated EmptyString in
   let md := extract_message_metadata (L := Rfc2822.reference) message in
   In (Header (py "Date") []) (payload_headers (msg_payload message))
   /\ header_dict (payload_headers (msg_payload message)) !! py "Date"
      = Some []
   /\ strptime (DatetimeLib := Rfc2822.reference) (date_text []) = None
   /\ md_date md = None
   /\ md_date md <> Some [])
  /\ (let raw :=
        "Mon, 02 Jan 2023 15:04:05 +0000 (UTC) and then some junk"%string in
      let message := Demo.dated raw in
      let md := extract_message_metadata (L := Rfc2822.reference) message in
      header_dict (payload_headers (msg_payload message)) !! py "Date"
      = Some (py raw)
      /\ without_trailing_comment (py raw) = py raw
      /\ strptime (DatetimeLib := Rfc2822.reference) (py raw) = None
      /\ md_date md = Some (py "2023-01-02T15:04:05+00:00")
      /\ md_date md <> Some (py raw))
  /\ (let raw := "Mon, 02 Jan 2023 15:04:05 +0000(UTC)"%string in
      let message := Demo.dated raw in
      let md := extract_message_metadata (L := Rfc2822.reference) message in
      header_dict (payload_headers (msg_payload message)) !! py "Date"
      = Some (py raw)
      /\ without_trailing_comment (py raw)
         = py "Mon, 02 Jan 2023 15:04:05 +0000"
      /\ isoformat <$> strptime (DatetimeLib := Rfc2822.reference)
                                (without_trailing_comment (py raw))
         = Some (py "2023-01-02T15:04:05+00:00")
      /\ md_date md = Some (py raw)
      /\ md_date md <> Some (py "2023-01-02T15:04:05+00:00")).
Proof.
  cbn zeta. split; [|split].
  - split; [right; left; reflexivity|].
    split; [vm_compute; reflexivity|].
    split; [reflexivity|].
    split; [vm_compute; reflexivity|].
    vm_compute. discriminate.
  - repeat split; try (vm_compute; reflexivity).
    vm_compute. discriminate.
  - repeat split; try (vm_compute; reflexivity).
    vm_compute. discriminate.
Qed.

(** ** Authentication *)

(** C8. When no file exists at the credentials path, [authenticate]
    raises [FileNotFoundError] with a message that tells the operator to
    download the file from the provider's console, and leaves the world as
    it was: no remote call, no file written (the token store included),
    nothing printed. *)
Theorem authenticate_missing_credentials (E : env) (self : authenticator)
        (w : world) :
  fs w !! credentials_file self = None ->
  GmailAuthenticator.authenticate E self w
  = (Raises (FileNotFoundError
               (py "Credentials file '" ++ credentials_file self
                ++ py "' not found. "
                ++ py "Please download it from Google Cloud Console.")), w).
Proof.
  intros Hmissing.
  unfold GmailAuthenticator.authenticate, mbind, M_bind, path_exists.
  rewrite Hmissing.
  rewrite bool_decide_false by (intros [x Hx]; discriminate Hx).
  reflexivity.
Qed.

Lemma authenticate_missing_credentials_witness :
  GmailAuthenticator.authenticate (Lab.mailbox [] true) Lab.new_auth
                                  Lab.empty_world
  = (Raises (FileNotFoundError
               (py "Credentials file 'credentials.json' not found. "
                ++ py "Please download it from Google Cloud Console.")),
     Lab.empty_world).
Proof.
  apply (authenticate_missing_credentials (Lab.mailbox [] true) Lab.new_auth
                                          Lab.empty_world).
  reflexivity.
Defined.

Example authenticate_first_run :
  let r := GmailAuthenticator.authenticate (Lab.mailbox [] true) Lab.new_auth
                                           Lab.installed in
  fst r = Returns (Service Lab.fresh, Lab.signed_in)
  /\ fs (snd r) !! py "token.pickle" = Some [Pickle Lab.fresh]
  /\ net (snd r) = [ConsentFlow (py "credentials.json") (Returns Lab.fresh);
                    ServiceBuild Lab.fresh (Returns (Service Lab.fresh))].
Proof. vm_compute. repeat split. Qed.

(** ** Running computations *)

Lemma bind_run {A B} (m : M A) (k : A -> M B) (w : world) :
  (m ≫= k) w = match m w with
               | (Returns a, w') => k a w'
               | (Raises e, w') => (Raises e, w')
               end.
Proof. reflexivity. Qed.

Lemma print_bind {B} (s : str) (k : unit -> M B) (w : world) :
  (print s ≫= k) w = k tt (World (fs w) (net w) (stdout w ++ [s])).
Proof. reflexivity. Qed.

Lemma mret_bind {A B} (a : A) (k : A -> M B) (w : world) :
  (mret a ≫= k) w = k a w.
Proof. reflexivity. Qed.

Lemma try_except_run {A} (m : M A) (handler : exn -> M A) (w : world) :
  try_except m handler w = match m w with
                           | (Raises e, w') => handler e w'
                           | r => r
                           end.
Proof. reflexivity. Qed.

Lemma world_eta (w : world) : World (fs w) (net w) (stdout w) = w.
Proof. destruct w; reflexivity. Qed.

(** A [try] whose handler only prints never raises. *)
Lemma swallowed (m : M unit) (report : exn -> str) (w : world) :
  exists w', try_except m (fun e => print (report e)) w = (Returns tt, w').
Proof.
  unfold try_except. destruct (m w) as [[[]|e] w1]; eauto.
Qed.

(** A loop of writes to an open file appends one chunk per element and
    touches nothing else. *)
Lemma for_each_write {A} (filename : str) (f : A -> chunk) (l : list A)
      (w : world) (content : list chunk) :
  fs w !! filename = Some content ->
  for_each l (fun x => write filename (f x)) w
  = (Returns tt,
     World (<[filename := content ++ map f l]> (fs w)) (net w) (stdout w)).
Proof.
  revert w content. induction l as [|x l IH]; intros w content Hc.
  - cbn [for_each map]. rewrite app_nil_r, insert_id by exact Hc.
    rewrite world_eta. reflexivity.
  - cbn [for_each map]. rewrite bind_run. unfold write at 1. rewrite Hc.
    cbn [default from_option id].
    erewrite IH by (cbn [fs]; apply lookup_insert_eq).
    cbn [fs net stdout]. rewrite insert_insert_eq, <- app_assoc.
    reflexivity.
Qed.

(** ** The CSV export *)

Section csv.

Context {L : DatetimeLib} (E : env).

(** On a path that can be opened, the empty list leaves an empty file
    behind. *)
Lemma save_messages_csv_empty (filename : str) (w : world) :
  open_error E filename = None ->
  GmailRetriever.save_messages_csv E [] filename w
  = (Returns tt,
     World (<[filename := []]> (fs w)) (net w)
           (stdout w ++ [py "No messages to save"])).
Proof.
  intros Hopen. unfold GmailRetriever.save_messages_csv, try_except.
  rewrite bind_run. unfold open_w. rewrite Hopen. reflexivity.
Qed.

(** On a path that can be opened, a non-empty list gives the header row
    and one row per message, in order. *)
Lemma save_messages_csv_rows (m : message) (ms : list message)
      (filename : str) (w : world) :
  open_error E filename = None ->
  GmailRetriever.save_messages_csv E (m :: ms) filename w
  = (Returns tt,
     World (<[filename :=
                CsvHeader (metadata_keys ++ [py "body_preview"])
                :: map (fun x => CsvRow (GmailRetriever.csv_row_of x))
                       (m :: ms)]> (fs w))
           (net w)
           (stdout w ++ [GmailRetriever.saved_line (m :: ms) filename])).
Proof.
  intros Hopen. unfold GmailRetriever.save_messages_csv, try_except.
  rewrite bind_run. unfold open_w at 1. rewrite Hopen.
  rewrite bind_run. unfold write at 1. cbn [fs net stdout].
  rewrite lookup_insert_eq. cbn [default from_option id app].
  rewrite bind_run.
  erewrite for_each_write by (cbn [fs]; apply lookup_insert_eq).
  cbn [fs net stdout]. unfold print.
  cbn [fs net stdout]. rewrite !insert_insert_eq. reflexivity.
Qed.

End csv.

(** C6. In the file that [save_messages_csv] writes, every row comes
    from one of the messages, and its [body_preview] column is the whole
    extracted body when that has at most 200 characters, and its first
    200 characters followed by "..." when it has more. *)
Theorem csv_body_preview {L : DatetimeLib} (E : env)
        (messages : list message) (filename : str) (w : world) :
  open_error E filename = None ->
  let w' := snd (GmailRetriever.save_messages_csv E messages filename w) in
  forall row,
    In (CsvRow row) (default [] (fs w' !! filename)) ->
    exists message,
      In message messages
      /\ row_metadata row = extract_message_metadata message
      /\ (length (extract_email_body message) <= 200 ->
          row_body_preview row = extract_email_body message)
      /\ (200 < length (extract_email_body message) ->
          row_body_preview row
          = firstn 200 (extract_email_body message) ++ py "...").
Proof.
  intros Hopen w' row. subst w'.
  destruct messages as [|m ms].
  - rewrite save_messages_csv_empty by exact Hopen. cbn [snd fs].
    rewrite lookup_insert_eq. intros [].
  - rewrite save_messages_csv_rows by exact Hopen. cbn [snd fs].
    rewrite lookup_insert_eq. cbn [default from_option id].
    intros [Hrow | Hrow]; [discriminate Hrow|].
    apply in_map_iff in Hrow. destruct Hrow as (x & Hx & Hin).
    injection Hx as <-. exists x. split; [exact Hin|].
    split; [reflexivity|].
    cbn [GmailRetriever.csv_row_of row_body_preview].
    unfold GmailRetriever.body_preview, Py.slice_to.
    split; intros Hlen.
    + destruct (Nat.ltb_spec 200 (length (extract_email_body x)));
        [lia | reflexivity].
    + destruct (Nat.ltb_spec 200 (length (extract_email_body x)));
        [reflexivity | lia].
Qed.

Lemma csv_body_preview_witness :
  let w' := snd (GmailRetriever.save_messages_csv
                   (L := Rfc2822.reference) (Lab.mailbox [] true)
                   [Lab.long_body] (py "out.csv") Lab.empty_world) in
  exists row,
    In (CsvRow row) (default [] (fs w' !! py "out.csv"))
    /\ row_body_preview row
       = firstn 200 (extract_email_body Lab.long_body) ++ py "..."
    /\ length (row_body_preview row) = 203.
Proof.
  pose proof (csv_body_preview (L := Rfc2822.reference) (Lab.mailbox [] true)
                [Lab.long_body] (py "out.csv") Lab.empty_world eq_refl)
    as Hrows.
  cbn zeta in *.
  exists (GmailRetriever.csv_row_of (L := Rfc2822.reference) Lab.long_body).
  assert (In (CsvRow (GmailRetriever.csv_row_of (L := Rfc2822.reference)
                        Lab.long_body))
             (default [] (fs (snd (GmailRetriever.save_messages_csv
                                     (L := Rfc2822.reference)
                                     (Lab.mailbox [] true) [Lab.long_body]
                                     (py "out.csv") Lab.empty_world))
                          !! py "out.csv"))) as Hin.
  { vm_compute. right. left. reflexivity. }
  split; [exact Hin|].
  destruct (Hrows _ Hin) as (message & [<- | []] & _ & _ & Hlong).
  rewrite Hlong by (vm_compute; lia).
  split; [reflexivity | vm_compute; reflexivity].
Defined.

(** C1, at the empty list and a path where nothing exists yet:
    [save_messages_csv] opens the file before it looks at the list, so the
    call prints "No messages to save" and leaves an empty file at the
    path. *)
Theorem save_messages_csv_empty_leaves_file :
  let disk := Lab.mailbox [] true in
  let w' := snd (GmailRetriever.save_messages_csv
                   (L := Rfc2822.reference) disk [] (py "out.csv")
                   Lab.empty_world) in
  fs Lab.empty_world !! py "out.csv" = None
  /\ fs w' !! py "out.csv" = Some []
  /\ stdout w' = [py "No messages to save"].
Proof. vm_compute. repeat split. Qed.

(** ** Search *)

Section search.

Context (E : env).

(** What [message_info] returns, when it returns. *)
Lemma message_info_returns (msg : message_ref) (message_data : message)
      (item : search_item) :
  GmailSearcher.message_info msg message_data = Returns item ->
  exists payload snippet,
    msg_payload message_data = Some payload
    /\ msg_snippet message_data = Some snippet
    /\ let d := header_dict (default [] (part_headers payload)) in
       item = SearchItem (ref_id msg) (msg_threadId message_data) snippet
                         (default (py "Unknown") (d !! py "From"))
                         (default (py "Unknown") (d !! py "To"))
                         (default (py "No Subject") (d !! py "Subject"))
                         (default (py "Unknown") (d !! py "Date"))
                         (default [] (msg_labelIds message_data)).
Proof.
  unfold GmailSearcher.message_info.
  destruct (msg_payload message_data) as [payload|]; [|discriminate].
  destruct (msg_snippet message_data) as [snippet|]; [|discriminate].
  intros [= <-]. exists payload, snippet. repeat split.
Qed.

Lemma search_loop_returns (total : nat) (messages : list message_ref) :
  forall (i : nat) (message_list : list search_item) (w : world)
         (items : list search_item) (w' : world),
    GmailSearcher.search_loop E total i messages message_list w
    = (Returns items, w') ->
    (exists evs, net w' = net w ++ evs)
    /\ exists new, items = message_list ++ new
                   /\ Forall (built_from (net w')) new.
Proof.
  induction messages as [|msg rest IH]; intros i acc w items w' Hrun.
  - injection Hrun as <- <-. split; [exists []; symmetry; apply app_nil_r|].
    exists []. split; [symmetry; apply app_nil_r | constructor].
  - cbn [GmailSearcher.search_loop] in Hrun. rewrite bind_run in Hrun.
    set (progress := if ((i + 1) mod 10 =? 0)%nat then _ else _) in Hrun.
    assert (exists w0, progress w = (Returns tt, w0) /\ net w0 = net w)
      as (w0 & Hprogress & Hnet0).
    { subst progress. destruct ((i + 1) mod 10 =? 0)%nat; eexists;
        (split; [reflexivity|reflexivity]). }
    rewrite Hprogress, bind_run in Hrun.
    unfold get_message, call in Hrun.
    destruct (messages_get E (net w0) (ref_id msg) FormatMetadata)
      as [message_data|e] eqn:Hget; [|discriminate Hrun].
    rewrite bind_run in Hrun. unfold lift in Hrun.
    destruct (GmailSearcher.message_info msg message_data)
      as [info|e] eqn:Hinfo; [|discriminate Hrun].
    apply IH in Hrun. cbn [net] in Hrun.
    destruct Hrun as ((evs & Hnet) & new & -> & Hnew).
    split.
    + exists (MessagesGet (ref_id msg) FormatMetadata (Returns message_data)
              :: evs).
      rewrite Hnet, Hnet0, <- app_assoc. reflexivity.
    + exists (info :: new). split; [rewrite <- app_assoc; reflexivity|].
      constructor; [|exact Hnew].
      exists msg, message_data. split; [|exact Hinfo].
      destruct (message_info_returns _ _ _ Hinfo) as (p & s & _ & _ & ->).
      cbn [si_id]. rewrite Hnet. apply in_or_app. left.
      apply in_or_app. right. left. reflexivity.
Qed.

(** Whatever [search] returns was built by the loop, from answers that
    are in the log. *)
Lemma search_returns (self : searcher) (query : str) (max_results : Z)
      (w : world) (items : list search_item) (self' : searcher)
      (w' : world) :
  GmailSearcher.search E self query max_results w
  = (Returns (items, self'), w') ->
  Forall (built_from (net w')) items.
Proof.
  intros Hrun. unfold GmailSearcher.search in Hrun.
  rewrite bind_run in Hrun.
  destruct (GmailSearcher.ensure_service E self w)
    as [[self1|e] w1]; [|discriminate Hrun].
  rewrite !print_bind, bind_run, try_except_run, bind_run in Hrun.
  unfold list_messages, call in Hrun. cbn [net fs stdout] in Hrun.
  destruct (messages_list E (net w1) query max_results) as [result|e];
    [|injection Hrun as <- <- <-; constructor].
  destruct (default [] (lr_messages result)) as [|msg rest];
    [injection Hrun as <- <- <-; constructor|].
  rewrite print_bind, bind_run in Hrun.
  destruct (GmailSearcher.search_loop E _ 0 (msg :: rest) [] _)
    as [[message_list|e] w2] eqn:Hloop;
    [|injection Hrun as <- <- <-; constructor].
  apply search_loop_returns in Hloop.
  destruct Hloop as (_ & new & -> & Hnew).
  injection Hrun as <- <- <-. exact Hnew.
Qed.

End search.

Lemma lacks_lookup (name : string) (headers : list header) :
  lacks name headers -> header_dict headers !! py name = None.
Proof. apply header_dict_None. Qed.

(** C10. Every item [search] returns was built from the answer to a
    metadata request for its id; where that answer has no From, To or
    Date header the item's field is "Unknown", and where it has no
    Subject header the field is "No Subject" (never the empty string).
    [extract_message_metadata] gives the empty string for the same
    missing headers. *)
Theorem search_placeholders {L : DatetimeLib} (E : env) :
  (forall self query max_results w items self' w',
      GmailSearcher.search E self query max_results w
      = (Returns (items, self'), w') ->
      forall item, In item items ->
      exists message_data payload,
        In (MessagesGet (si_id item) FormatMetadata (Returns message_data))
           (net w')
        /\ msg_payload message_data = Some payload
        /\ let headers := default [] (part_headers payload) in
           (lacks "From" headers -> si_from item = py "Unknown")
           /\ (lacks "To" headers -> si_to item = py "Unknown")
           /\ (lacks "Subject" headers -> si_subject item = py "No Subject")
           /\ (lacks "Date" headers -> si_date item = py "Unknown"))
  /\ (py "Unknown" <> [] /\ py "No Subject" <> [])
  /\ (forall message,
         let headers := payload_headers (msg_payload message) in
         let md := extract_message_metadata message in
         (lacks "From" headers -> md_from md = [])
         /\ (lacks "To" headers -> md_to md = [])
         /\ (lacks "Subject" headers -> md_subject md = [])
         /\ (lacks "Date" headers -> md_date_raw md = [])).
Proof.
  split; [|split; [split; discriminate|]].
  - intros self query max_results w items self' w' Hrun item Hitem.
    apply search_returns in Hrun. rewrite Forall_forall in Hrun.
    destruct (Hrun item) as (msg & message_data & Hlog & Hinfo);
      [apply list_elem_of_In, Hitem|].
    destruct (message_info_returns _ _ _ Hinfo)
      as (payload & snippet & Hpayload & _ & Hfields).
    exists message_data, payload. split; [exact Hlog|].
    split; [exact Hpayload|]. cbn zeta in *. subst item.
    cbn [si_from si_to si_subject si_date].
    repeat split; intros Hlacks; rewrite (lacks_lookup _ _ Hlacks);
      reflexivity.
  - intros message. cbn zeta.
    cbn [extract_message_metadata md_from md_to md_subject md_date_raw].
    repeat split; intros Hlacks; rewrite (lacks_lookup _ _ Hlacks);
      reflexivity.
Qed.

Lemma search_placeholders_witness :
  let E := Lab.mailbox [Lab.bare] true in
  let searcher := GmailSearcher.init (Some Lab.signed_in) None in
  exists item self' w',
    GmailSearcher.search E searcher (py "is:inbox") 3 Lab.empty_world
    = (Returns ([item], self'), w')
    /\ si_from item = py "Unknown"
    /\ si_to item = py "Unknown"
    /\ si_subject item = py "No Subject"
    /\ si_date item = py "Unknown".
Proof.
  cbn zeta.
  destruct (GmailSearcher.search (Lab.mailbox [Lab.bare] true)
              (GmailSearcher.init (Some Lab.signed_in) None)
              (py "is:inbox") 3 Lab.empty_world)
    as [[[items self']|e] w'] eqn:Hrun; vm_compute in Hrun;
    [|discriminate Hrun].
  injection Hrun as <- <- <-.
  eexists _, _, _. split; [reflexivity|].
  destruct (proj1 (search_placeholders (L := Rfc2822.reference)
                     (Lab.mailbox [Lab.bare] true))
                  (GmailSearcher.init (Some Lab.signed_in) None)
                  (py "is:inbox") 3%Z Lab.empty_world _ _ _
                  ltac:(vm_compute; reflexivity) _ (or_introl eq_refl))
    as (message_data & payload & Hlog & Hpayload & Hfrom & Hto & Hsubject
        & Hdate).
  destruct Hlog as [Hlog | [Hlog | []]]; [discriminate Hlog|].
  injection Hlog as <-. injection Hpayload as <-.
  split; [apply Hfrom; constructor|].
  split; [apply Hto; constructor|].
  split; [apply Hsubject; constructor | apply Hdate; constructor].
Defined.

(** ** The export workflow *)

Section export.

Context {L : DatetimeLib} (E : env).

Lemma save_messages_json_returns messages filename w :
  exists w', GmailRetriever.save_messages_json E messages filename w
             = (Returns tt, w').
Proof. apply swallowed. Qed.

Lemma save_messages_csv_returns messages filename w :
  exists w', GmailRetriever.save_messages_csv E messages filename w
             = (Returns tt, w').
Proof. apply swallowed. Qed.

Lemma save_messages_text_returns messages filename w :
  exists w', GmailRetriever.save_messages_text E messages filename w
             = (Returns tt, w').
Proof. apply swallowed. Qed.

(** A retriever that holds a service handle fetches without
    authenticating again: every fetch error is swallowed, so the loop
    returns, and the retriever is as before. *)
Lemma get_full_message_returns self service message_id w :
  r_service self = Some service ->
  exists message w',
    GmailRetriever.get_full_message E self message_id w
    = (Returns (message, self), w').
Proof.
  intros Hs. unfold GmailRetriever.get_full_message,
               GmailRetriever.ensure_service.
  rewrite Hs, mret_bind, bind_run, try_except_run, bind_run.
  unfold get_message, call.
  destruct (messages_get E (net w) message_id FormatFull); eauto.
Qed.

Lemma retrieve_loop_returns self service show_progress total message_ids :
  r_service self = Some service ->
  forall i messages w,
  exists messages' w',
    GmailRetriever.retrieve_loop E self show_progress total i message_ids
                                 messages w
    = (Returns (messages', self), w').
Proof.
  intros Hs. induction message_ids as [|msg_id rest IH]; intros i acc w.
  - eexists _, _. reflexivity.
  - cbn [GmailRetriever.retrieve_loop]. rewrite bind_run.
    set (progress := if show_progress && ((i + 1) mod 10 =? 0)%nat
                     then print _ else mret tt).
    assert (exists w0, progress w = (Returns tt, w0)) as [w0 ->]
        by (subst progress;
            destruct (show_progress && ((i + 1) mod 10 =? 0)%nat);
            eexists; reflexivity).
    rewrite bind_run.
    destruct (get_full_message_returns self service msg_id w0 Hs)
      as (message & w1 & ->).
    apply IH.
Qed.

Lemma get_multiple_messages_returns self service message_ids w :
  r_service self = Some service ->
  exists messages w',
    GmailRetriever.get_multiple_messages E self message_ids true w
    = (Returns (messages, self), w').
Proof.
  intros Hs. unfold GmailRetriever.get_multiple_messages,
               GmailRetriever.ensure_service.
  rewrite Hs, mret_bind, print_bind, bind_run.
  destruct (retrieve_loop_returns self service true (length message_ids)
              message_ids Hs 0 [] (World (fs w) (net w)
                (stdout w ++ [py "Retrieving "
                              ++ Py.str_of_nat (length message_ids)
                              ++ py " messages..."])))
    as (messages & w1 & ->).
  rewrite print_bind. eexists _, _. reflexivity.
Qed.

Variables (self : retriever) (search_query : str) (max_results : Z)
          (output_prefix : str) (w : world).

(** No hit: the summary of the short cut, and one more printed line. *)
Lemma export_no_hits searcher' w1 :
  export_search E self search_query max_results w
  = (Returns ([], searcher'), w1) ->
  GmailRetriever.export_search_results E self search_query max_results
                                       output_prefix w
  = (Returns (Summary None (Some 0) (Some []) None,
              Retriever (s_auth searcher') (r_service self)),
     World (fs w1) (net w1)
           (stdout w1 ++ [py "No messages found to export"])).
Proof.
  unfold export_search, started. intros Hsearch.
  unfold GmailRetriever.export_search_results.
  rewrite print_bind, bind_run, Hsearch. reflexivity.
Qed.

(** Some hits: whatever the retrieval raises is raised by the export. *)
Lemma export_retrieval_raises hit hits searcher' w1 e w2 :
  export_search E self search_query max_results w
  = (Returns (hit :: hits, searcher'), w1) ->
  GmailRetriever.get_multiple_messages
    E (Retriever (s_auth searcher') (r_service self))
    (map si_id (hit :: hits)) true w1 = (Raises e, w2) ->
  GmailRetriever.export_search_results E self search_query max_results
                                       output_prefix w
  = (Raises e, w2).
Proof.
  unfold export_search, started. intros Hsearch Hget.
  unfold GmailRetriever.export_search_results.
  rewrite print_bind, bind_run, Hsearch. cbn beta iota zeta.
  rewrite bind_run, Hget. reflexivity.
Qed.

(** Some hits and a retrieval that returns: the three exports are
    attempted in turn and the summary lists the three paths. *)
Lemma export_retrieval_returns hit hits searcher' w1 full self2 w2 :
  export_search E self search_query max_results w
  = (Returns (hit :: hits, searcher'), w1) ->
  GmailRetriever.get_multiple_messages
    E (Retriever (s_auth searcher') (r_service self))
    (map si_id (hit :: hits)) true w1 = (Returns (full, self2), w2) ->
  exists w',
    GmailRetriever.export_search_results E self search_query max_results
                                         output_prefix w
    = (Returns (Summary (Some search_query) (Some (length full))
                        (Some (export_paths output_prefix
                                            (Strftime.stamp (now E))))
                        (Some (Strftime.stamp (now E))),
                self2), w').
Proof.
  unfold export_search, started. intros Hsearch Hget.
  unfold GmailRetriever.export_search_results.
  rewrite print_bind, bind_run, Hsearch. cbn beta iota zeta.
  rewrite bind_run, Hget. cbn beta iota zeta.
  set (ts := Strftime.stamp (now E)).
  destruct (save_messages_json_returns
              full (output_prefix ++ py "_" ++ ts ++ py ".json") w2)
    as [w3 H3].
  rewrite bind_run, H3.
  destruct (save_messages_csv_returns
              full (output_prefix ++ py "_" ++ ts ++ py ".csv") w3)
    as [w4 H4].
  rewrite bind_run, H4.
  destruct (save_messages_text_returns
              full (output_prefix ++ py "_" ++ ts ++ py ".txt") w4)
    as [w5 H5].
  rewrite bind_run, H5.
  rewrite !print_bind. eexists. reflexivity.
Qed.

End export.

(** ** What a computation adds to the log of remote calls *)

Section logs.

Context (P : event -> Prop).

Lemma logs_silent {A} (m : M A) :
  (forall w, net (snd (m w)) = net w) -> logs_only P m.
Proof.
  intros Hm w r w' Hrun. exists []. split; [|constructor].
  specialize (Hm w). rewrite Hrun in Hm. cbn [snd] in Hm.
  rewrite Hm. symmetry. apply app_nil_r.
Qed.

Lemma logs_bind {A B} (m : M A) (k : A -> M B) :
  logs_only P m -> (forall a, logs_only P (k a)) -> logs_only P (m ≫= k).
Proof.
  intros Hm Hk w r w' Hrun. rewrite bind_run in Hrun.
  destruct (m w) as [[a|e] w1] eqn:Hmw.
  - destruct (Hm _ _ _ Hmw) as (evs1 & Hnet1 & HP1).
    destruct (Hk a _ _ _ Hrun) as (evs2 & Hnet2 & HP2).
    exists (evs1 ++ evs2). rewrite Hnet2, Hnet1, <- app_assoc.
    split; [reflexivity | apply Forall_app; split; assumption].
  - injection Hrun as <- <-. exact (Hm _ _ _ Hmw).
Qed.

Lemma logs_try_except {A} (m : M A) (handler : exn -> M A) :
  logs_only P m -> (forall e, logs_only P (handler e)) ->
  logs_only P (try_except m handler).
Proof.
  intros Hm Hh w r w' Hrun. rewrite try_except_run in Hrun.
  destruct (m w) as [[a|e] w1] eqn:Hmw.
  - injection Hrun as <- <-. exact (Hm _ _ _ Hmw).
  - destruct (Hm _ _ _ Hmw) as (evs1 & Hnet1 & HP1).
    destruct (Hh e _ _ _ Hrun) as (evs2 & Hnet2 & HP2).
    exists (evs1 ++ evs2). rewrite Hnet2, Hnet1, <- app_assoc.
    split; [reflexivity | apply Forall_app; split; assumption].
Qed.

Lemma logs_call {A} (answer : list event -> outcome A)
      (log : outcome A -> event) :
  (forall r, P (log r)) -> logs_only P (call answer log).
Proof.
  intros Hlog w r w' [= <- <-]. exists [log (answer (net w))].
  split; [reflexivity | constructor; [apply Hlog | constructor]].
Qed.

Lemma logs_open_w (E : env) path : logs_only P (open_w E path).
Proof.
  apply logs_silent. intros w. unfold open_w.
  destruct (open_error E path); reflexivity.
Qed.

Lemma logs_unpickle path : logs_only P (unpickle path).
Proof.
  apply logs_silent. intros w. unfold unpickle.
  destruct (fs w !! path) as [[|[] []]|]; reflexivity.
Qed.

End logs.

(** One step of a proof that a computation only logs events in [P]. *)
Ltac logs_step :=
  lazymatch goal with
  | |- logs_only _ (_ ≫= _) => apply logs_bind; [|intros ?]
  | |- logs_only _ (try_except _ _) => apply logs_try_except; [|intros ?]
  | |- logs_only _ (call _ _) => apply logs_call; intros ? Hev; exact Hev
  | |- logs_only _ (open_w _ _) => apply logs_open_w
  | |- logs_only _ (unpickle _) => apply logs_unpickle
  | |- logs_only _ (mret _) => apply logs_silent; reflexivity
  | |- logs_only _ (raise _) => apply logs_silent; reflexivity
  | |- logs_only _ (print _) => apply logs_silent; reflexivity
  | |- logs_only _ (write _ _) => apply logs_silent; reflexivity
  | |- logs_only _ (path_exists _) => apply logs_silent; reflexivity
  | |- logs_only _ (lift _) => apply logs_silent; reflexivity
  | |- logs_only _ (if ?b then _ else _) => destruct b
  | |- logs_only _ (match ?x with _ => _ end) => destruct x
  end.

Section search_log.

Context (E : env).

Lemma authenticate_log self :
  logs_only (fun ev => ~ retrieval ev)
            (GmailAuthenticator.authenticate E self).
Proof.
  unfold GmailAuthenticator.authenticate, GmailAuthenticator._save_token,
    GmailAuthenticator._run_oauth_flow.
  repeat logs_step.
Qed.

Lemma search_loop_log total messages :
  forall i message_list,
    logs_only (fun ev => ~ retrieval ev)
              (GmailSearcher.search_loop E total i messages message_list).
Proof.
  induction messages as [|msg rest IH]; intros i acc;
    cbn [GmailSearcher.search_loop]; [logs_step|].
  unfold get_message. repeat logs_step. apply IH.
Qed.

(** [search] never asks for the full form of a message. *)
Lemma search_log self query max_results :
  logs_only (fun ev => ~ retrieval ev)
            (GmailSearcher.search E self query max_results).
Proof.
  unfold GmailSearcher.search, GmailSearcher.ensure_service,
    GmailSearcher.authenticate, list_messages.
  repeat first [apply authenticate_log | apply search_loop_log | logs_step].
Qed.

End search_log.

(** ** The claims about [export_search_results] *)

(** C7. When the search of [export_search_results] returns no hit, the
    call returns a summary with [message_count] 0 and an empty
    [files_created], and does nothing after the search but print a line:
    the filesystem and the log of remote calls are those the search left,
    and in the whole call no full message was requested. *)
Theorem export_zero_hits_short_circuit {L : DatetimeLib} (E : env)
        (self : retriever) (search_query : str) (max_results : Z)
        (output_prefix : str) (w : world) (searcher' : searcher)
        (w1 : world) :
  export_search E self search_query max_results w
  = (Returns ([], searcher'), w1) ->
  exists s self' w',
    GmailRetriever.export_search_results E self search_query max_results
                                         output_prefix w
    = (Returns (s, self'), w')
    /\ sum_message_count s = Some 0
    /\ sum_files_created s = Some []
    /\ fs w' = fs w1
    /\ net w' = net w1
    /\ exists evs, net w' = net w ++ evs
                   /\ Forall (fun ev => ~ retrieval ev) evs.
Proof.
  intros Hsearch.
  rewrite (export_no_hits E self search_query max_results output_prefix w
                          searcher' w1 Hsearch).
  eexists _, _, _. split; [reflexivity|]. cbn [fs net].
  repeat (split; [reflexivity|]).
  exact (search_log E _ _ _ _ _ _ Hsearch).
Qed.

Lemma export_zero_hits_short_circuit_witness :
  let E := Lab.mailbox [] true in
  exists s self' w',
    GmailRetriever.export_search_results
      (L := Rfc2822.reference) E Lab.ready (py "from:nobody") 100
      (py "gmail_export") Lab.empty_world
    = (Returns (s, self'), w')
    /\ sum_message_count s = Some 0
    /\ sum_files_created s = Some []
    /\ fs w' = ∅
    /\ net w' = [MessagesList (py "from:nobody") 100
                              (Returns (ListResponse None (Some 0%Z)))].
Proof.
  cbn zeta.
  destruct (export_search (Lab.mailbox [] true) Lab.ready (py "from:nobody")
                          100 Lab.empty_world)
    as [[[hits searcher']|e] w1] eqn:Hsearch; vm_compute in Hsearch;
    [|discriminate Hsearch].
  injection Hsearch as <- <- <-.
  destruct (export_zero_hits_short_circuit
              (L := Rfc2822.reference) (Lab.mailbox [] true) Lab.ready
              (py "from:nobody") 100 (py "gmail_export") Lab.empty_world _ _
              ltac:(vm_compute; reflexivity))
    as (s & self' & w' & Hrun & Hcount & Hfiles & Hfs & Hnet & _).
  exists s, self', w'. repeat split; assumption.
Defined.

(** C2, at a query that matches nothing: the dictionary returned on the
    short cut has the keys ['message_count'] and ['files_created'] only;
    ['search_query'] and ['timestamp'] are missing from it. *)
Theorem export_zero_hits_summary_keys :
  let E := Lab.mailbox [] true in
  fst (GmailRetriever.export_search_results
         (L := Rfc2822.reference) E Lab.ready (py "from:nobody") 100
         (py "gmail_export") Lab.empty_world)
  = Returns (Summary None (Some 0) (Some []) None, Lab.ready).
Proof. vm_compute. reflexivity. Qed.

(** C9. When the search of [export_search_results] returns at least one
    hit and the call returns, [files_created] is the list of the three
    paths [{prefix}_{timestamp}.json], [.csv], [.txt], in this order and
    with the one timestamp of the summary, whether the files could be
    written or not (nothing is assumed about [open_error]); and the call
    does return when the retriever already holds a service handle. *)
Theorem export_files_created {L : DatetimeLib} (E : env) (self : retriever)
        (search_query : str) (max_results : Z) (output_prefix : str)
        (w : world) (hits : list search_item) (searcher' : searcher)
        (w1 : world) :
  export_search E self search_query max_results w
  = (Returns (hits, searcher'), w1) ->
  hits <> [] ->
  let timestamp := Strftime.stamp (now E) in
  (forall s self' w',
      GmailRetriever.export_search_results E self search_query max_results
                                           output_prefix w
      = (Returns (s, self'), w') ->
      sum_files_created s
      = Some [output_prefix ++ py "_" ++ timestamp ++ py ".json";
              output_prefix ++ py "_" ++ timestamp ++ py ".csv";
              output_prefix ++ py "_" ++ timestamp ++ py ".txt"]
      /\ sum_timestamp s = Some timestamp)
  /\ (is_Some (r_service self) ->
      exists s self' w',
        GmailRetriever.export_search_results E self search_query max_results
                                             output_prefix w
        = (Returns (s, self'), w')).
Proof.
  intros Hsearch Hhits timestamp.
  destruct hits as [|hit hits]; [contradiction|].
  split.
  - intros s self' w' Hrun.
    destruct (GmailRetriever.get_multiple_messages
                E (Retriever (s_auth searcher') (r_service self))
                (map si_id (hit :: hits)) true w1)
      as [[[full self2]|e] w2] eqn:Hget.
    + destruct (export_retrieval_returns E self search_query max_results
                  output_prefix w hit hits searcher' w1 full self2 w2
                  Hsearch Hget) as [w3 Hexport].
      rewrite Hexport in Hrun. injection Hrun as <- <- <-.
      split; reflexivity.
    + rewrite (export_retrieval_raises E self search_query max_results
                 output_prefix w hit hits searcher' w1 e w2 Hsearch Hget)
        in Hrun.
      discriminate Hrun.
  - intros [service Hservice].
    destruct (get_multiple_messages_returns
                E (Retriever (s_auth searcher') (r_service self)) service
                (map si_id (hit :: hits)) w1 Hservice)
      as (full & w2 & Hget).
    destruct (export_retrieval_returns E self search_query max_results
                output_prefix w hit hits searcher' w1 full _ w2
                Hsearch Hget) as [w3 Hexport].
    eexists _, _, _. exact Hexport.
Qed.

(** On a disk that refuses every write, with one message found: the
    three paths are in the summary and none of the files exists. *)
Lemma export_files_created_witness :
  let E := Lab.mailbox [Lab.bare] false in
  exists s self' w',
    GmailRetriever.export_search_results
      (L := Rfc2822.reference) E Lab.ready (py "is:inbox") 100
      (py "gmail_export") Lab.empty_world
    = (Returns (s, self'), w')
    /\ sum_files_created s
       = Some [py "gmail_export_20240309_070500.json";
               py "gmail_export_20240309_070500.csv";
               py "gmail_export_20240309_070500.txt"]
    /\ sum_timestamp s = Some (py "20240309_070500")
    /\ fs w' = ∅.
Proof.
  cbn zeta.
  destruct (export_search (Lab.mailbox [Lab.bare] false) Lab.ready
                          (py "is:inbox") 100 Lab.empty_world)
    as [[[hits searcher']|e] w1] eqn:Hsearch; vm_compute in Hsearch;
    [|discriminate Hsearch].
  injection Hsearch as <- <- <-.
  destruct (export_files_created
              (L := Rfc2822.reference) (Lab.mailbox [Lab.bare] false)
              Lab.ready (py "is:inbox") 100 (py "gmail_export")
              Lab.empty_world _ _ _
              ltac:(vm_compute; reflexivity) ltac:(discriminate))
    as [Hfiles Hreturns].
  destruct (Hreturns ltac:(eexists; reflexivity)) as (s & self' & w' & Hrun).
  destruct (Hfiles s self' w' Hrun) as [Hpaths Hstamp].
  exists s, self', w'. split; [exact Hrun|].
  split; [exact Hpaths|]. split; [exact Hstamp|].
  vm_compute in Hrun. injection Hrun as _ _ <-. reflexivity.
Defined.

(** * Further properties of the code *)

(** ** Which files a computation touches *)

Section frame.

Context (allowed : str -> Prop).

Lemma writes_silent {A} (m : M A) :
  (forall w, fs (snd (m w)) = fs w) -> writes_only allowed m.
Proof.
  intros Hm w r w' Hrun path _. specialize (Hm w). rewrite Hrun in Hm.
  cbn [snd] in Hm. rewrite Hm. reflexivity.
Qed.

Lemma writes_bind {A B} (m : M A) (k : A -> M B) :
  writes_only allowed m -> (forall a, writes_only allowed (k a)) ->
  writes_only allowed (m ≫= k).
Proof.
  intros Hm Hk w r w' Hrun path Hpath. rewrite bind_run in Hrun.
  destruct (m w) as [[a|e] w1] eqn:Hmw.
  - rewrite (Hk a _ _ _ Hrun path Hpath). exact (Hm _ _ _ Hmw path Hpath).
  - injection Hrun as <- <-. exact (Hm _ _ _ Hmw path Hpath).
Qed.

Lemma writes_try_except {A} (m : M A) (handler : exn -> M A) :
  writes_only allowed m -> (forall e, writes_only allowed (handler e)) ->
  writes_only allowed (try_except m handler).
Proof.
  intros Hm Hh w r w' Hrun path Hpath. rewrite try_except_run in Hrun.
  destruct (m w) as [[a|e] w1] eqn:Hmw.
  - injection Hrun as <- <-. exact (Hm _ _ _ Hmw path Hpath).
  - rewrite (Hh e _ _ _ Hrun path Hpath). exact (Hm _ _ _ Hmw path Hpath).
Qed.

Lemma writes_open_w (E : env) (path : str) :
  allowed path -> writes_only allowed (open_w E path).
Proof.
  intros Hok w r w' Hrun other Hother. unfold open_w in Hrun.
  destruct (open_error E path); injection Hrun as <- <-; [reflexivity|].
  cbn [fs]. apply lookup_insert_ne. intros ->. contradiction.
Qed.

Lemma writes_write (path : str) (c : chunk) :
  allowed path -> writes_only allowed (write path c).
Proof.
  intros Hok w r w' [= <- <-] other Hother.
  cbn [fs]. apply lookup_insert_ne. intros ->. contradiction.
Qed.

Lemma writes_call {A} (answer : list event -> outcome A)
      (log : outcome A -> event) :
  writes_only allowed (call answer log).
Proof. apply writes_silent. reflexivity. Qed.

Lemma writes_unpickle path : writes_only allowed (unpickle path).
Proof.
  apply writes_silent. intros w. unfold unpickle.
  destruct (fs w !! path) as [[|[] []]|]; reflexivity.
Qed.

Lemma writes_for_each {A} (l : list A) (body : A -> M unit) :
  (forall x, writes_only allowed (body x)) ->
  writes_only allowed (for_each l body).
Proof.
  intros Hbody. induction l as [|x l IH]; cbn [for_each].
  - apply writes_silent. reflexivity.
  - apply writes_bind; [apply Hbody | intros _; exact IH].
Qed.

End frame.

(** One step of a proof that a computation writes to allowed paths only;
    what is left are the side conditions on the paths written. *)
Ltac writes_step :=
  lazymatch goal with
  | |- writes_only _ (_ ≫= _) => apply writes_bind; [|intros ?]
  | |- writes_only _ (try_except _ _) => apply writes_try_except; [|intros ?]
  | |- writes_only _ (call _ _) => apply writes_call
  | |- writes_only _ (open_w _ _) => apply writes_open_w
  | |- writes_only _ (write _ _) => apply writes_write
  | |- writes_only _ (unpickle _) => apply writes_unpickle
  | |- writes_only _ (for_each _ _) => apply writes_for_each; intros ?
  | |- writes_only _ (mret _) => apply writes_silent; reflexivity
  | |- writes_only _ (raise _) => apply writes_silent; reflexivity
  | |- writes_only _ (print _) => apply writes_silent; reflexivity
  | |- writes_only _ (path_exists _) => apply writes_silent; reflexivity
  | |- writes_only _ (lift _) => apply writes_silent; reflexivity
  | |- writes_only _ (if ?b then _ else _) => destruct b
  | |- writes_only _ (match ?x with _ => _ end) => destruct x
  end.

(** ** More on authentication *)

Lemma authenticate_frame (E : env) (self : authenticator) :
  writes_only (eq (token_file self)) (GmailAuthenticator.authenticate E self).
Proof.
  unfold GmailAuthenticator.authenticate, GmailAuthenticator._save_token,
    GmailAuthenticator._run_oauth_flow.
  repeat (writes_step; try reflexivity).
Qed.

(** X. Whatever [authenticate] does and however it ends, the only file it
    can create or change is the token store: every other path holds
    afterwards what it held before. *)
Theorem authenticate_writes_only_token_store (E : env)
        (self : authenticator) (w : world) (path : str) :
  path <> token_file self ->
  fs (snd (GmailAuthenticator.authenticate E self w)) !! path = fs w !! path.
Proof.
  intros Hpath.
  destruct (GmailAuthenticator.authenticate E self w) as [r w'] eqn:Hrun.
  apply (authenticate_frame E self w r w' Hrun). congruence.
Qed.

Lemma authenticate_writes_only_token_store_witness :
  fs (snd (GmailAuthenticator.authenticate (Lab.mailbox [] true)
             Lab.new_auth Lab.installed)) !! py "credentials.json"
  = Some [Text (py "{}")].
Proof.
  rewrite (authenticate_writes_only_token_store
             (Lab.mailbox [] true) Lab.new_auth Lab.installed
             (py "credentials.json"));
    [reflexivity | discriminate].
Defined.

Lemma save_token_run (E : env) (self : authenticator) (c : credentials)
      (w : world) :
  GmailAuthenticator._save_token E self c w
  = match open_error E (token_file self) with
    | Some msg => (Raises (Error msg), w)
    | None =>
      (Returns tt,
       World (<[token_file self := [Pickle c]]> (fs w)) (net w)
             (stdout w ++ [py "Token saved to " ++ token_file self]))
    end.
Proof.
  unfold GmailAuthenticator._save_token. rewrite bind_run. unfold open_w.
  destruct (open_error E (token_file self)); [reflexivity|].
  rewrite bind_run. unfold write. cbn [fs net stdout].
  rewrite lookup_insert_eq, insert_insert_eq. reflexivity.
Qed.

(** Obtaining a credential and persisting it: when this returns, the
    token store holds the credential and the log has only grown. *)
Lemma persisted (E : env) (self : authenticator) (m : M credentials)
      (w : world) (c : credentials) (w' : world) :
  logs_only (fun ev => ~ retrieval ev) m ->
  (m ≫= fun c' => GmailAuthenticator._save_token E self c';; mret c') w
  = (Returns c, w') ->
  (exists evs, net w' = net w ++ evs)
  /\ fs w' !! token_file self = Some [Pickle c].
Proof.
  intros Hlog Hrun. rewrite bind_run in Hrun.
  destruct (m w) as [[c1|e] w1] eqn:Hm; [|discriminate Hrun].
  rewrite bind_run, save_token_run in Hrun.
  destruct (open_error E (token_file self)); [discriminate Hrun|].
  injection Hrun as <- <-. cbn [fs net].
  destruct (Hlog _ _ _ Hm) as (evs & Hnet & _).
  split; [exists evs; exact Hnet | apply lookup_insert_eq].
Qed.

(** What holds whenever [authenticate] returns. *)
Lemma authenticate_returns (E : env) (self : authenticator) (w : world)
      (service : service) (self' : authenticator) (w' : world) :
  GmailAuthenticator.authenticate E self w = (Returns (service, self'), w') ->
  self' = Authenticator (credentials_file self) (token_file self)
                        (Some service)
  /\ is_Some (fs w !! credentials_file self)
  /\ exists creds evs,
      net w' = net w ++ evs ++ [ServiceBuild creds (Returns service)]
      /\ fs w' !! token_file self = Some [Pickle creds].
Proof.
  intros Hrun. unfold GmailAuthenticator.authenticate in Hrun.
  rewrite bind_run in Hrun. unfold path_exists at 1 in Hrun.
  destruct (decide (is_Some (fs w !! credentials_file self))) as [Hcf|Hcf];
    [rewrite (bool_decide_true _ Hcf) in Hrun
    |rewrite (bool_decide_false _ Hcf) in Hrun; discriminate Hrun].
  cbn [negb] in Hrun. rewrite bind_run in Hrun.
  unfold path_exists at 1 in Hrun.
  assert (exists c1 w1,
             (exists evs, net w1 = net w ++ evs)
             /\ fs w1 !! token_file self = Some [Pickle c1]
             /\ (call (fun h => service_build E h c1) (ServiceBuild c1)
                 ≫= fun service0 =>
                      print (py "Successfully authenticated with Gmail API");;
                      mret (service0,
                            Authenticator (credentials_file self)
                                          (token_file self) (Some service0)))
                  w1
                = (Returns (service, self'), w'))
    as (c1 & w1 & (evs & Hnet) & Hstore & Hbuild).
  { assert (forall w0 c2 w2,
               (GmailAuthenticator._run_oauth_flow E self
                ≫= fun c' => GmailAuthenticator._save_token E self c';;
                             mret c') w0 = (Returns c2, w2) ->
               (exists evs, net w2 = net w0 ++ evs)
               /\ fs w2 !! token_file self = Some [Pickle c2]) as Hconsent.
    { intros w0 c2 w2. apply persisted.
      unfold GmailAuthenticator._run_oauth_flow. logs_step. }
    destruct (bool_decide (is_Some (fs w !! token_file self))).
    - rewrite !bind_run in Hrun. unfold unpickle in Hrun.
      destruct (fs w !! token_file self) as [[|[| | | |c] []]|] eqn:Hfile;
        try discriminate Hrun.
      change ((mret (Some c) : M (option credentials)) w)
        with (Returns (Some c), w) in Hrun.
      cbn beta iota in Hrun. rewrite bind_run in Hrun.
      destruct (cred_valid c).
      + exists c, w. split; [exists []; symmetry; apply app_nil_r|].
        split; [exact Hfile | exact Hrun].
      + destruct (cred_expired c
                  && from_option Py.truthy false (cred_refresh_token c)).
        * match type of Hrun with
          | match ?m w with _ => _ end = _ =>
            destruct (m w) as [[c1|e] w1] eqn:Hrenew; [|discriminate Hrun]
          end.
          apply persisted in Hrenew;
            [|unfold GmailAuthenticator._run_oauth_flow; repeat logs_step].
          exists c1, w1. destruct Hrenew as [Hnet1 Hstore1].
          split; [exact Hnet1|]. split; [exact Hstore1 | exact Hrun].
        * rewrite print_bind in Hrun.
          match type of Hrun with
          | match ?m ?w0 with _ => _ end = _ =>
            destruct (m w0) as [[c1|e] w1] eqn:Hrenew; [|discriminate Hrun]
          end.
          apply Hconsent in Hrenew.
          exists c1, w1. destruct Hrenew as [Hnet1 Hstore1].
          split; [exact Hnet1|]. split; [exact Hstore1 | exact Hrun].
    - rewrite mret_bind, bind_run, print_bind in Hrun.
      match type of Hrun with
      | match ?m ?w0 with _ => _ end = _ =>
        destruct (m w0) as [[c1|e] w1] eqn:Hrenew; [|discriminate Hrun]
      end.
      apply Hconsent in Hrenew.
      exists c1, w1. destruct Hrenew as [Hnet1 Hstore1].
      split; [exact Hnet1|]. split; [exact Hstore1 | exact Hrun]. }
  rewrite bind_run in Hbuild. unfold call in Hbuild.
  destruct (service_build E (net w1) c1) as [svc|e] eqn:Hsvc;
    [|discriminate Hbuild].
  rewrite print_bind in Hbuild. injection Hbuild as <- <- <-.
  split; [reflexivity|]. split; [exact Hcf|].
  exists c1, evs. cbn [fs net]. rewrite Hnet, <- app_assoc.
  split; [reflexivity | exact Hstore].
Qed.

(** X. After a successful [authenticate] the handle is cached on the
    authenticator: [is_authenticated] is true, [get_service] gives the
    handle that was returned, and the two paths are as before. *)
Theorem authenticate_caches_service (E : env) (self : authenticator)
        (w : world) (service : service) (self' : authenticator)
        (w' : world) :
  GmailAuthenticator.authenticate E self w = (Returns (service, self'), w') ->
  GmailAuthenticator.is_authenticated self' = true
  /\ GmailAuthenticator.get_service self' = Some service
  /\ credentials_file self' = credentials_file self
  /\ token_file self' = token_file self.
Proof.
  intros Hrun. destruct (authenticate_returns _ _ _ _ _ _ Hrun) as (-> & _).
  repeat split.
Qed.

Lemma authenticate_caches_service_witness :
  exists service self' w',
    GmailAuthenticator.authenticate (Lab.mailbox [] true) Lab.new_auth
                                    Lab.installed
    = (Returns (service, self'), w')
    /\ GmailAuthenticator.is_authenticated self' = true
    /\ GmailAuthenticator.get_service self' = Some service.
Proof.
  destruct (GmailAuthenticator.authenticate (Lab.mailbox [] true)
              Lab.new_auth Lab.installed)
    as [[[service self']|e] w'] eqn:Hrun; vm_compute in Hrun;
    [|discriminate Hrun].
  injection Hrun as <- <- <-. eexists _, _, _. split; [reflexivity|].
  destruct (authenticate_caches_service
              (Lab.mailbox [] true) Lab.new_auth Lab.installed _ _ _
              ltac:(vm_compute; reflexivity)) as (Hauth & Hget & _).
  split; [exact Hauth | exact Hget].
Defined.

(** X. After a successful [authenticate] the token store holds exactly
    the credential the returned handle was built from, and building the
    handle was the last remote step. *)
Theorem authenticate_token_store_consistent (E : env)
        (self : authenticator) (w : world) (service : service)
        (self' : authenticator) (w' : world) :
  GmailAuthenticator.authenticate E self w = (Returns (service, self'), w') ->
  exists creds,
    fs w' !! token_file self = Some [Pickle creds]
    /\ last (net w') = Some (ServiceBuild creds (Returns service)).
Proof.
  intros Hrun.
  destruct (authenticate_returns _ _ _ _ _ _ Hrun)
    as (_ & _ & creds & evs & Hnet & Hstore).
  exists creds. split; [exact Hstore|].
  rewrite Hnet, app_assoc. apply last_snoc.
Qed.

Lemma authenticate_token_store_consistent_witness :
  exists service self' w',
    GmailAuthenticator.authenticate (Lab.mailbox [] true) Lab.new_auth
                                    Lab.installed
    = (Returns (service, self'), w')
    /\ fs w' !! py "token.pickle" = Some [Pickle Lab.fresh].
Proof.
  destruct (GmailAuthenticator.authenticate (Lab.mailbox [] true)
              Lab.new_auth Lab.installed)
    as [[[service self']|e] w'] eqn:Hrun; vm_compute in Hrun;
    [|discriminate Hrun].
  injection Hrun as <- <- <-. eexists _, _, _. split; [reflexivity|].
  destruct (authenticate_token_store_consistent
              (Lab.mailbox [] true) Lab.new_auth Lab.installed _ _ _
              ltac:(vm_compute; reflexivity)) as (creds & Hstore & Hlast).
  injection Hlast as <-. exact Hstore.
Defined.

(** X. With the client secret in place and a stored credential that is
    valid, [authenticate] neither refreshes nor asks for consent nor
    writes: its only remote step is building the handle, the filesystem
    is untouched, and a failure of the build is raised to the caller. *)
Theorem authenticate_with_valid_token (E : env) (self : authenticator)
        (w : world) (c : credentials) :
  is_Some (fs w !! credentials_file self) ->
  fs w !! token_file self = Some [Pickle c] ->
  cred_valid c = true ->
  GmailAuthenticator.authenticate E self w
  = match service_build E (net w) c with
    | Returns service =>
      (Returns (service,
                Authenticator (credentials_file self) (token_file self)
                              (Some service)),
       World (fs w) (net w ++ [ServiceBuild c (Returns service)])
             (stdout w ++ [py "Successfully authenticated with Gmail API"]))
    | Raises e =>
      (Raises e,
       World (fs w) (net w ++ [ServiceBuild c (Raises e)]) (stdout w))
    end.
Proof.
  intros Hcf Htf Hvalid.
  unfold GmailAuthenticator.authenticate.
  rewrite bind_run. unfold path_exists at 1.
  rewrite (bool_decide_true _ Hcf). cbn [negb].
  rewrite bind_run. unfold path_exists at 1.
  rewrite Htf, bool_decide_true by eauto.
  rewrite !bind_run. unfold unpickle. rewrite Htf.
  change ((mret (Some c) : M (option credentials)) w)
    with (Returns (Some c), w).
  cbn beta iota. rewrite Hvalid, mret_bind, bind_run. unfold call.
  destruct (service_build E (net w) c); reflexivity.
Qed.


Lemma authenticate_with_valid_token_witness :
  GmailAuthenticator.authenticate (Lab.mailbox [] true) Lab.new_auth
                                  Cases.returning
  = (Returns (Service Lab.fresh, Lab.signed_in),
     World (fs Cases.returning)
           [ServiceBuild Lab.fresh (Returns (Service Lab.fresh))]
           [py "Successfully authenticated with Gmail API"]).
Proof.
  rewrite (authenticate_with_valid_token
             (Lab.mailbox [] true) Lab.new_auth Cases.returning Lab.fresh);
    [reflexivity | vm_compute; eauto | vm_compute; reflexivity | reflexivity].
Defined.


(** X. A refresh that fails with anything but [RefreshError] is not
    recovered: the exception reaches the caller, no consent flow is run
    and the token store is left as it was. *)
Theorem authenticate_refresh_crash_propagates (E : env)
        (self : authenticator) (w : world) (c : credentials)
        (refresh_token : str) (e : exn) :
  is_Some (fs w !! credentials_file self) ->
  fs w !! token_file self = Some [Pickle c] ->
  cred_valid c = false ->
  cred_expired c = true ->
  cred_refresh_token c = Some refresh_token ->
  refresh_token <> [] ->
  token_refresh E (net w) c = Raises e ->
  (forall reason, e <> RefreshError reason) ->
  GmailAuthenticator.authenticate E self w
  = (Raises e,
     World (fs w) (net w ++ [TokenRefresh c (Raises e)])
           (stdout w ++ [py "Refreshing expired token..."])).
Proof.
  intros Hcf Htf Hvalid Hexpired Htoken Hne Hrefresh Hother.
  unfold GmailAuthenticator.authenticate.
  rewrite bind_run. unfold path_exists at 1.
  rewrite (bool_decide_true _ Hcf). cbn [negb].
  rewrite bind_run. unfold path_exists at 1.
  rewrite Htf, bool_decide_true by eauto.
  rewrite !bind_run. unfold unpickle. rewrite Htf.
  change ((mret (Some c) : M (option credentials)) w)
    with (Returns (Some c), w).
  cbn beta iota. rewrite Hvalid, Hexpired, Htoken.
  destruct refresh_token as [|ch rest]; [contradiction|].
  cbn [from_option Py.truthy andb].
  do 2 rewrite bind_run. rewrite print_bind, try_except_run.
  unfold call at 1. cbn [fs net stdout]. rewrite Hrefresh.
  destruct e as [m|k|m|m]; try reflexivity.
  destruct (Hother m eq_refl).
Qed.

Lemma authenticate_refresh_crash_propagates_witness :
  let E := Cases.with_refresh (Raises (Error (py "timed out")))
                              (Lab.mailbox [] true) in
  let r := GmailAuthenticator.authenticate E Lab.new_auth Cases.lapsed in
  fst r = Raises (Error (py "timed out"))
  /\ fs (snd r) = fs Cases.lapsed.
Proof.
  cbn zeta.
  rewrite (authenticate_refresh_crash_propagates
             (Cases.with_refresh (Raises (Error (py "timed out")))
                                 (Lab.mailbox [] true))
             Lab.new_auth Cases.lapsed Cases.stale (py "1//old")
             (Error (py "timed out")));
    [ split; reflexivity | vm_compute; eauto | vm_compute; reflexivity
      | reflexivity | reflexivity | reflexivity | discriminate
      | reflexivity | discriminate ].
Defined.



(** ** More on search *)

Section search_more.

Context (E : env).

Lemma search_loop_exact (total : nat) (messages : list message_ref) :
  forall (i : nat) (message_list : list search_item) (w : world)
         (items : list search_item) (w' : world),
    GmailSearcher.search_loop E total i messages message_list w
    = (Returns items, w') ->
    exists answers new,
      length answers = length messages
      /\ net w' = net w ++ metadata_requests messages answers
      /\ items = message_list ++ new
      /\ zip_with GmailSearcher.message_info messages answers
         = map Returns new
      /\ fs w' = fs w.
Proof.
  induction messages as [|msg rest IH]; intros i acc w items w' Hrun.
  - injection Hrun as <- <-. exists [], [].
    rewrite !app_nil_r. repeat split.
  - cbn [GmailSearcher.search_loop] in Hrun. rewrite bind_run in Hrun.
    set (progress := if ((i + 1) mod 10 =? 0)%nat then _ else _) in Hrun.
    assert (exists w0, progress w = (Returns tt, w0)
                       /\ net w0 = net w /\ fs w0 = fs w)
      as (w0 & Hprogress & Hnet0 & Hfs0).
    { subst progress. destruct ((i + 1) mod 10 =? 0)%nat; eexists;
        repeat split. }
    rewrite Hprogress, bind_run in Hrun.
    unfold get_message, call in Hrun.
    destruct (messages_get E (net w0) (ref_id msg) FormatMetadata)
      as [message_data|e] eqn:Hget; [|discriminate Hrun].
    rewrite bind_run in Hrun. unfold lift in Hrun.
    destruct (GmailSearcher.message_info msg message_data)
      as [info|e] eqn:Hinfo; [|discriminate Hrun].
    apply IH in Hrun. cbn [net fs] in Hrun.
    destruct Hrun as (answers & new & Hlen & Hnet & -> & Hinfos & Hfs).
    exists (message_data :: answers), (info :: new).
    cbn [length metadata_requests zip_with map].
    rewrite Hlen, Hnet, Hnet0, Hfs, Hfs0, Hinfo, Hinfos, <- !app_assoc.
    repeat split.
Qed.

Lemma message_infos_ids (messages : list message_ref) :
  forall (answers : list message) (new : list search_item),
    length answers = length messages ->
    zip_with GmailSearcher.message_info messages answers = map Returns new ->
    map si_id new = map ref_id messages.
Proof.
  induction messages as [|msg rest IH]; intros [|data answers] [|item new];
    cbn [length zip_with map]; try discriminate; [reflexivity|].
  intros [= Hlen] [= Hinfo Hrest].
  destruct (message_info_returns _ _ _ Hinfo) as (p & s & _ & _ & ->).
  cbn [si_id]. f_equal. exact (IH _ _ Hlen Hrest).
Qed.

Lemma search_loop_writes_nothing (allowed : str -> Prop) total messages :
  forall i message_list,
    writes_only allowed
                (GmailSearcher.search_loop E total i messages message_list).
Proof.
  induction messages as [|msg rest IH]; intros i acc;
    cbn [GmailSearcher.search_loop]; [writes_step|].
  unfold get_message. repeat writes_step. apply IH.
Qed.

(** The only file [search] can touch is the token store of its
    authenticator. *)
Lemma search_frame self query max_results :
  writes_only (eq (token_file (s_auth self)))
              (GmailSearcher.search E self query max_results).
Proof.
  unfold GmailSearcher.search, GmailSearcher.ensure_service,
    GmailSearcher.authenticate, list_messages.
  repeat first [apply authenticate_frame | apply search_loop_writes_nothing
                | writes_step].
Qed.

(** With a handle, [search] runs without authenticating: it writes no
    file at all. *)
Lemma search_ready_frame self service query max_results :
  s_service self = Some service ->
  writes_only (fun _ => False)
              (GmailSearcher.search E self query max_results).
Proof.
  intros Hs.
  unfold GmailSearcher.search, GmailSearcher.ensure_service, list_messages.
  rewrite Hs.
  repeat first [apply search_loop_writes_nothing | writes_step].
Qed.

Lemma search_ready_returns self service query max_results w :
  s_service self = Some service ->
  exists items w',
    GmailSearcher.search E self query max_results w
    = (Returns (items, self), w').
Proof.
  intros Hs. unfold GmailSearcher.search, GmailSearcher.ensure_service.
  rewrite Hs, mret_bind, !print_bind, bind_run, try_except_run.
  match goal with
  | |- context [match ?m ?w0 with _ => _ end] =>
    destruct (m w0) as [[items|e] w1]
  end.
  - eexists _, _. reflexivity.
  - rewrite print_bind. eexists _, _. reflexivity.
Qed.

End search_more.

(** X. A searcher that holds a service handle never raises from
    [search]: every remote failure is swallowed. The searcher is returned
    as it was and no file is created or changed. *)
Theorem search_never_raises (E : env) (self : searcher) (service : service)
        (query : str) (max_results : Z) (w : world) :
  s_service self = Some service ->
  exists items w',
    GmailSearcher.search E self query max_results w
    = (Returns (items, self), w')
    /\ fs w' = fs w.
Proof.
  intros Hs.
  destruct (search_ready_returns E self service query max_results w Hs)
    as (items & w' & Hrun).
  exists items, w'. split; [exact Hrun|].
  apply map_eq. intros path.
  apply (search_ready_frame E self service query max_results Hs _ _ _ Hrun).
  intros [].
Qed.

Lemma search_never_raises_witness :
  exists w',
    GmailSearcher.search Cases.unreachable Cases.searcher_ready
                         (py "is:inbox") 100 Lab.empty_world
    = (Returns ([], Cases.searcher_ready), w')
    /\ fs w' = ∅.
Proof.
  destruct (search_never_raises Cases.unreachable Cases.searcher_ready
              (Service Lab.fresh) (py "is:inbox") 100 Lab.empty_world
              eq_refl) as (items & w' & Hrun & Hfs).
  exists w'. split; [|exact Hfs].
  rewrite Hrun. vm_compute in Hrun. injection Hrun as <- _. reflexivity.
Defined.



(** X. The remote calls of a successful [search] by a searcher that
    holds a service handle are one list call followed by exactly one
    metadata request per listed message, in the listed order, and nothing
    else. *)
Theorem search_fan_out (E : env) (self : searcher) (service : service)
        (query : str) (max_results : Z) (w : world)
        (items : list search_item) (self' : searcher) (w' : world) :
  s_service self = Some service ->
  GmailSearcher.search E self query max_results w
  = (Returns (items, self'), w') ->
  items <> [] ->
  exists result answers,
    let messages := default [] (lr_messages result) in
    net w' = net w ++ MessagesList query max_results (Returns result)
                   :: metadata_requests messages answers
    /\ length answers = length messages
    /\ length items = length messages.
Proof.
  intros Hs Hrun Hitems.
  unfold GmailSearcher.search, GmailSearcher.ensure_service in Hrun.
  rewrite Hs, mret_bind, !print_bind, bind_run, try_except_run, bind_run
    in Hrun.
  unfold list_messages, call in Hrun. cbn [net fs stdout] in Hrun.
  destruct (messages_list E (net w) query max_results) as [result|e];
    [|injection Hrun as <- <- <-; contradiction].
  destruct (default [] (lr_messages result)) as [|msg rest] eqn:Hlisted;
    [injection Hrun as <- <- <-; contradiction|].
  rewrite print_bind, bind_run in Hrun.
  destruct (GmailSearcher.search_loop E _ 0 (msg :: rest) [] _)
    as [[message_list|e] w2] eqn:Hloop;
    [|injection Hrun as <- <- <-; contradiction].
  apply search_loop_exact in Hloop.
  destruct Hloop as (answers & new & Hlen & Hnet & -> & Hinfos & _).
  injection Hrun as <- <- <-. exists result, answers.
  cbn zeta. rewrite Hlisted. cbn [net app] in *.
  rewrite Hnet, <- app_assoc. split; [reflexivity|].
  split; [exact Hlen|].
  rewrite <- (length_map si_id), (message_infos_ids _ _ _ Hlen Hinfos).
  apply length_map.
Qed.

Lemma search_fan_out_witness :
  exists items w',
    GmailSearcher.search (Lab.mailbox [Lab.bare; Demo.nested_text] true)
                         Cases.searcher_ready (py "is:inbox") 100
                         Lab.empty_world
    = (Returns (items, Cases.searcher_ready), w')
    /\ length (net w') = 3.
Proof.
  destruct (GmailSearcher.search
              (Lab.mailbox [Lab.bare; Demo.nested_text] true)
              Cases.searcher_ready (py "is:inbox") 100 Lab.empty_world)
    as [[[items self']|e] w'] eqn:Hrun; vm_compute in Hrun;
    [|discriminate Hrun].
  injection Hrun as <- <- <-. eexists _, _. split; [reflexivity|].
  destruct (search_fan_out
              (Lab.mailbox [Lab.bare; Demo.nested_text] true)
              Cases.searcher_ready (Service Lab.fresh) (py "is:inbox") 100
              Lab.empty_world _ _ _ eq_refl
              ltac:(vm_compute; reflexivity) ltac:(discriminate))
    as (result & answers & Hnet & Hanswers & Hitems).
  reflexivity.
Defined.

(** X. With a service handle, [get_message_count] makes exactly one
    remote call, a list call that asks for one result, and never raises:
    it returns the estimate of the response, 0 when the response has no
    estimate, and 0 with a printed error when the call fails. It writes
    no file and leaves the searcher as it was. *)
Theorem get_message_count_total (E : env) (self : searcher)
        (service : service) (query : str) (w : world) :
  s_service self = Some service ->
  let r := messages_list E (net w) query 1 in
  GmailSearcher.get_message_count E self query w
  = match r with
    | Returns result =>
      let total := default 0%Z (lr_resultSizeEstimate result) in
      (Returns (total, self),
       World (fs w) (net w ++ [MessagesList query 1 r])
             (stdout w ++ [py "Query '" ++ query
                           ++ py "' matches approximately "
                           ++ Py.str_of_Z total ++ py " messages"]))
    | Raises e =>
      (Returns (0%Z, self),
       World (fs w) (net w ++ [MessagesList query 1 r])
             (stdout w ++ [py "Error getting message count: "
                           ++ exn_str e]))
    end.
Proof.
  intros Hs r. subst r.
  unfold GmailSearcher.get_message_count, GmailSearcher.ensure_service.
  rewrite Hs, mret_bind, bind_run, try_except_run, bind_run.
  unfold list_messages, call.
  destruct (messages_list E (net w) query 1); reflexivity.
Qed.

Lemma get_message_count_total_witness :
  fst (GmailSearcher.get_message_count
         (Lab.mailbox [Lab.bare; Demo.nested_text] true)
         Cases.searcher_ready (py "is:inbox") Lab.empty_world)
  = Returns (2%Z, Cases.searcher_ready)
  /\ fst (GmailSearcher.get_message_count
            Cases.unreachable Cases.searcher_ready (py "is:inbox")
            Lab.empty_world)
     = Returns (0%Z, Cases.searcher_ready).
Proof.
  split.
  - rewrite (get_message_count_total
               (Lab.mailbox [Lab.bare; Demo.nested_text] true)
               Cases.searcher_ready (Service Lab.fresh) (py "is:inbox")
               Lab.empty_world eq_refl).
    reflexivity.
  - rewrite (get_message_count_total
               Cases.unreachable Cases.searcher_ready (Service Lab.fresh)
               (py "is:inbox") Lab.empty_world eq_refl).
    reflexivity.
Defined.

(** X. [search_by_date_range] without a usable bound (each bound missing
    or empty) raises at once and leaves the world as it was: no
    authentication, no remote call. With bounds it runs [search] on the
    query made of [after:] and [before:], in this order, joined by one
    space. *)
Theorem search_by_date_range_queries (E : env) (self : searcher)
        (max_results : Z) (w : world) :
  (forall after_date before_date,
      absent after_date -> absent before_date ->
      GmailSearcher.search_by_date_range E self after_date before_date
                                         max_results w
      = (Raises (Error (py "At least one date (after_date or before_date) "
                        ++ py "must be provided")), w))
  /\ (forall a before_date,
         a <> [] -> absent before_date ->
         GmailSearcher.search_by_date_range E self (Some a) before_date
                                            max_results
         = GmailSearcher.search E self (py "after:" ++ a) max_results)
  /\ (forall after_date b,
         absent after_date -> b <> [] ->
         GmailSearcher.search_by_date_range E self after_date (Some b)
                                            max_results
         = GmailSearcher.search E self (py "before:" ++ b) max_results)
  /\ (forall a b,
         a <> [] -> b <> [] ->
         GmailSearcher.search_by_date_range E self (Some a) (Some b)
                                            max_results
         = GmailSearcher.search E self
             (py "after:" ++ a ++ py " before:" ++ b) max_results).
Proof.
  unfold GmailSearcher.search_by_date_range, GmailSearcher.append_bound.
  repeat split.
  - intros after_date before_date [-> | ->] [-> | ->]; reflexivity.
  - intros [|c a] before_date Ha [-> | ->]; try contradiction; reflexivity.
  - intros after_date [|c b] [-> | ->] Hb; try contradiction; reflexivity.
  - intros [|c a] [|d b] Ha Hb; try contradiction.
    cbn [Py.truthy app GmailSearcher.join_space].
    rewrite <- !app_assoc. reflexivity.
Qed.

Lemma search_by_date_range_queries_witness :
  GmailSearcher.search_by_date_range
    (Lab.mailbox [] true) (GmailSearcher.init None None) None
    (Some []) 100 Lab.empty_world
  = (Raises (Error (py "At least one date (after_date or before_date) "
                    ++ py "must be provided")), Lab.empty_world)
  /\ GmailSearcher.search_by_date_range
       (Lab.mailbox [] true) Cases.searcher_ready (Some (py "2023/01/01"))
       None 100
     = GmailSearcher.search (Lab.mailbox [] true) Cases.searcher_ready
                            (py "after:2023/01/01") 100.
Proof.
  destruct (search_by_date_range_queries
              (Lab.mailbox [] true) (GmailSearcher.init None None) 100
              Lab.empty_world) as (Hnone & _).
  destruct (search_by_date_range_queries
              (Lab.mailbox [] true) Cases.searcher_ready 100
              Lab.empty_world) as (_ & Hafter & _).
  split.
  - apply Hnone; [left; reflexivity | right; reflexivity].
  - apply (Hafter (py "2023/01/01") None); [discriminate | left; reflexivity].
Defined.

(** ** Handles are cached *)

(** X. A searcher and a retriever authenticate at most once: after a
    successful [authenticate] the object holds the handle, and every
    later [authenticate] returns the same handle without a remote call,
    a write or a printed line. When the object had no handle before, the
    authenticator it is built on holds the handle too. *)
Theorem handle_cached (E : env) :
  (forall self w service self' w',
      GmailSearcher.authenticate E self w = (Returns (service, self'), w') ->
      s_service self' = Some service
      /\ (s_service self = None -> auth_service (s_auth self') = Some service)
      /\ forall w2, GmailSearcher.authenticate E self' w2
                    = (Returns (service, self'), w2))
  /\ (forall self w service self' w',
         GmailRetriever.authenticate E self w
         = (Returns (service, self'), w') ->
         r_service self' = Some service
         /\ (r_service self = None ->
             auth_service (r_auth self') = Some service)
         /\ forall w2, GmailRetriever.authenticate E self' w2
                       = (Returns (service, self'), w2)).
Proof.
  split.
  - intros self w service self' w'. unfold GmailSearcher.authenticate at 1.
    destruct (s_service self) as [service0|] eqn:Hs.
    + intros [= <- <- <-]. split; [exact Hs|]. split; [discriminate|].
      intros w2. unfold GmailSearcher.authenticate. rewrite Hs. reflexivity.
    + rewrite bind_run.
      destruct (GmailAuthenticator.authenticate E (s_auth self) w)
        as [[[service1 auth]|e] w1] eqn:Hauth; [|discriminate].
      intros [= <- <- <-].
      destruct (authenticate_returns _ _ _ _ _ _ Hauth) as (-> & _).
      repeat split.
  - intros self w service self' w'. unfold GmailRetriever.authenticate at 1.
    destruct (r_service self) as [service0|] eqn:Hs.
    + intros [= <- <- <-]. split; [exact Hs|]. split; [discriminate|].
      intros w2. unfold GmailRetriever.authenticate. rewrite Hs. reflexivity.
    + rewrite bind_run.
      destruct (GmailAuthenticator.authenticate E (r_auth self) w)
        as [[[service1 auth]|e] w1] eqn:Hauth; [|discriminate].
      intros [= <- <- <-].
      destruct (authenticate_returns _ _ _ _ _ _ Hauth) as (-> & _).
      repeat split.
Qed.

Lemma handle_cached_witness :
  exists service self' w',
    GmailSearcher.authenticate (Lab.mailbox [] true)
                               (GmailSearcher.init (Some Lab.new_auth) None)
                               Lab.installed
    = (Returns (service, self'), w')
    /\ auth_service (s_auth self') = Some service
    /\ GmailSearcher.authenticate (Lab.mailbox [] true) self' w'
       = (Returns (service, self'), w').
Proof.
  destruct (GmailSearcher.authenticate
              (Lab.mailbox [] true)
              (GmailSearcher.init (Some Lab.new_auth) None) Lab.installed)
    as [[[service self']|e] w'] eqn:Hrun; vm_compute in Hrun;
    [|discriminate Hrun].
  injection Hrun as <- <- <-. eexists _, _, _. split; [reflexivity|].
  destruct (proj1 (handle_cached (Lab.mailbox [] true))
                  (GmailSearcher.init (Some Lab.new_auth) None)
                  Lab.installed _ _ _ ltac:(vm_compute; reflexivity))
    as (_ & Hshared & Hagain).
  split; [apply Hshared; reflexivity | apply Hagain].
Defined.

(** ** Retrieval *)

Section retrieval.

Context (E : env) (self : retriever) (service : service).

Lemma get_full_message_run (message_id : str) (w : world) :
  r_service self = Some service ->
  let r := messages_get E (net w) message_id FormatFull in
  GmailRetriever.get_full_message E self message_id w
  = match r with
    | Returns m =>
      (Returns (Some m, self),
       World (fs w) (net w ++ [MessagesGet message_id FormatFull r])
             (stdout w))
    | Raises e =>
      (Returns (None, self),
       World (fs w) (net w ++ [MessagesGet message_id FormatFull r])
             (stdout w ++ [py "Error retrieving message " ++ message_id
                           ++ py ": " ++ exn_str e]))
    end.
Proof.
  intros Hservice. cbn zeta.
  unfold GmailRetriever.get_full_message, GmailRetriever.ensure_service.
  rewrite Hservice, mret_bind, bind_run, try_except_run, bind_run.
  unfold get_message, call.
  destruct (messages_get E (net w) message_id FormatFull); reflexivity.
Qed.

Lemma retrieve_loop_run (show_progress : bool) (total : nat)
      (message_ids : list str) :
  r_service self = Some service ->
  forall (i : nat) (messages : list message) (w : world),
    exists out,
      GmailRetriever.retrieve_loop E self show_progress total i message_ids
                                   messages w
      = (Returns (messages
                  ++ returned (full_answers E (net w) message_ids), self),
         World (fs w)
               (net w ++ full_requests message_ids
                                       (full_answers E (net w) message_ids))
               out).
Proof.
  intros Hservice.
  induction message_ids as [|msg_id rest IH]; intros i acc w.
  - exists (stdout w). cbn. rewrite !app_nil_r, world_eta. reflexivity.
  - cbn [GmailRetriever.retrieve_loop]. rewrite bind_run.
    set (progress := if show_progress && ((i + 1) mod 10 =? 0)%nat
                     then print _ else mret tt).
    assert (exists out0, progress w = (Returns tt, World (fs w) (net w) out0))
      as [out0 ->].
    { subst progress.
      destruct (show_progress && ((i + 1) mod 10 =? 0)%nat);
        eexists; [reflexivity|]. rewrite <- (world_eta w) at 1. reflexivity. }
    rewrite bind_run, get_full_message_run by exact Hservice.
    cbn [net fs stdout].
    cbn [full_answers full_requests zip_with].
    destruct (messages_get E (net w) msg_id FormatFull) as [m|e];
      cbn beta iota;
      match goal with
      | |- context [GmailRetriever.retrieve_loop E self show_progress total
                      (S i) rest ?acc' ?w1] =>
        destruct (IH (S i) acc' w1) as [out ->]
      end;
      exists out; cbn [net fs returned omap]; rewrite <- ?app_assoc;
        reflexivity.
Qed.

End retrieval.

Lemma returned_cons (r : outcome message)
      (answers : list (outcome message)) :
  returned (r :: answers)
  = match r with
    | Returns m => m :: returned answers
    | Raises _ => returned answers
    end.
Proof. destruct r; reflexivity. Qed.

Lemma returned_length (answers : list (outcome message)) :
  length (returned answers) <= length answers.
Proof.
  induction answers as [|[m|e] answers IH]; [reflexivity| |];
    rewrite returned_cons; cbn [length]; lia.
Qed.

Lemma full_answers_length (E : env) (log : list event)
      (message_ids : list str) :
  length (full_answers E log message_ids) = length message_ids.
Proof.
  revert log. induction message_ids as [|id rest IH]; intros log;
    [reflexivity|].
  cbn [full_answers length]. rewrite IH. reflexivity.
Qed.

(** The run of [get_multiple_messages] on a retriever that holds a
    service handle: the loop above between the two progress lines. *)
Lemma get_multiple_messages_run (E : env) (self : retriever)
      (service : service) (message_ids : list str) (show_progress : bool)
      (w : world) :
  r_service self = Some service ->
  exists out,
    GmailRetriever.get_multiple_messages E self message_ids show_progress w
    = (Returns (returned (full_answers E (net w) message_ids), self),
       World (fs w)
             (net w ++ full_requests message_ids
                                     (full_answers E (net w) message_ids))
             out).
Proof.
  intros Hs.
  unfold GmailRetriever.get_multiple_messages,
    GmailRetriever.ensure_service.
  rewrite Hs, mret_bind.
  set (announce := if show_progress then print _ else mret tt).
  assert (exists out0,
             announce w = (Returns tt, World (fs w) (net w) out0))
    as [out0 Hannounce].
  { subst announce. destruct show_progress; eexists; [reflexivity|].
    rewrite <- (world_eta w) at 1. reflexivity. }
  rewrite bind_run, Hannounce, bind_run.
  destruct (retrieve_loop_run E self service show_progress
              (length message_ids) message_ids Hs 0 []
              (World (fs w) (net w) out0)) as [out1 ->].
  cbn [app net fs].
  destruct show_progress; eexists; reflexivity.
Qed.

(** X. A retriever that holds a service handle fetches the messages one
    after the other, with exactly one full-format request per id in the
    order given; it returns the messages that came back, in that order,
    and skips the ids whose request failed. It never raises, writes no
    file and is returned as it was. *)
Theorem get_multiple_messages_in_order (E : env) (self : retriever)
        (service : service) (message_ids : list str) (show_progress : bool)
        (w : world) :
  r_service self = Some service ->
  let answers := full_answers E (net w) message_ids in
  length (returned answers) <= length message_ids
  /\ exists out,
      GmailRetriever.get_multiple_messages E self message_ids show_progress w
      = (Returns (returned answers, self),
         World (fs w) (net w ++ full_requests message_ids answers) out).
Proof.
  intros Hs answers. split.
  - subst answers.
    etransitivity; [apply returned_length|].
    rewrite full_answers_length. reflexivity.
  - exact (get_multiple_messages_run E self service message_ids
                                     show_progress w Hs).
Qed.

Lemma get_multiple_messages_in_order_witness :
  exists out,
    GmailRetriever.get_multiple_messages
      (Lab.mailbox [Lab.bare; Demo.nested_text] true) Lab.ready
      [py "m1"; py "lost"; py "m5"] true Lab.empty_world
    = (Returns ([Demo.nested_text; Lab.bare], Lab.ready),
       World ∅
             [MessagesGet (py "m1") FormatFull (Returns Demo.nested_text);
              MessagesGet (py "lost") FormatFull
                          (Raises (Error (py "HttpError 404")));
              MessagesGet (py "m5") FormatFull (Returns Lab.bare)]
             out).
Proof.
  destruct (get_multiple_messages_in_order
              (Lab.mailbox [Lab.bare; Demo.nested_text] true) Lab.ready
              (Service Lab.fresh) [py "m1"; py "lost"; py "m5"] true
              Lab.empty_world eq_refl) as (_ & out & Hrun).
  exists out. rewrite Hrun. reflexivity.
Defined.

(** ** The three writers *)

Section writers.

Context {L : DatetimeLib} (E : env).

Lemma save_messages_json_run (messages : list message) (filename : str)
      (w : world) :
  GmailRetriever.save_messages_json E messages filename w
  = match open_error E filename with
    | None =>
      (Returns tt,
       World (<[filename := [JsonDump messages]]> (fs w)) (net w)
             (stdout w ++ [GmailRetriever.saved_line messages filename]))
    | Some msg =>
      (Returns tt,
       World (fs w) (net w)
             (stdout w ++ [py "Error saving to JSON: " ++ msg]))
    end.
Proof.
  unfold GmailRetriever.save_messages_json.
  rewrite try_except_run, bind_run. unfold open_w.
  destruct (open_error E filename); [reflexivity|].
  rewrite bind_run. unfold write. cbn [fs net stdout].
  rewrite lookup_insert_eq, insert_insert_eq. reflexivity.
Qed.

Lemma text_loop_run (filename : str) (total : nat)
      (messages : list message) :
  forall (i : nat) (w : world) (content : list chunk),
    fs w !! filename = Some content ->
    GmailRetriever.text_loop filename total i messages w
    = (Returns tt,
       World (<[filename :=
                  content
                  ++ map Text
                       (concat (imap (fun k m =>
                                        GmailRetriever.text_block
                                          total (i + k) m) messages))]>
                (fs w))
             (net w) (stdout w)).
Proof.
  induction messages as [|m rest IH]; intros i w content Hcontent.
  - cbn [GmailRetriever.text_loop imap concat map].
    rewrite app_nil_r, insert_id by exact Hcontent.
    rewrite world_eta. reflexivity.
  - cbn [GmailRetriever.text_loop]. rewrite bind_run.
    rewrite (for_each_write filename Text _ w content Hcontent).
    erewrite IH by (cbn [fs]; apply lookup_insert_eq).
    cbn [fs net stdout]. rewrite insert_insert_eq.
    rewrite imap_cons. cbn [concat]. rewrite map_app, Nat.add_0_r.
    rewrite <- app_assoc.
    rewrite (imap_ext
               ((fun k m => GmailRetriever.text_block total (i + k) m) ∘ S)
               (fun k m => GmailRetriever.text_block total (S i + k) m)
               rest); [reflexivity|].
    intros k x _. cbn [compose]. f_equal. lia.
Qed.

Lemma save_messages_text_run (messages : list message) (filename : str)
      (w : world) :
  GmailRetriever.save_messages_text E messages filename w
  = match open_error E filename with
    | None =>
      (Returns tt,
       World (<[filename :=
                  map Text
                      (concat (imap (fun k m =>
                                       GmailRetriever.text_block
                                         (length messages) (S k) m)
                                    messages))]> (fs w))
             (net w)
             (stdout w ++ [GmailRetriever.saved_line messages filename]))
    | Some msg =>
      (Returns tt,
       World (fs w) (net w)
             (stdout w ++ [py "Error saving to text: " ++ msg]))
    end.
Proof.
  unfold GmailRetriever.save_messages_text.
  rewrite try_except_run, bind_run. unfold open_w.
  destruct (open_error E filename); [reflexivity|].
  rewrite bind_run.
  erewrite text_loop_run by (cbn [fs]; apply lookup_insert_eq).
  cbn [fs net stdout app]. rewrite insert_insert_eq. reflexivity.
Qed.

Lemma save_messages_csv_failure (messages : list message) (filename : str)
      (w : world) (msg : str) :
  open_error E filename = Some msg ->
  GmailRetriever.save_messages_csv E messages filename w
  = (Returns tt,
     World (fs w) (net w) (stdout w ++ [py "Error saving to CSV: " ++ msg])).
Proof.
  intros Hopen. unfold GmailRetriever.save_messages_csv.
  rewrite try_except_run, bind_run. unfold open_w. rewrite Hopen.
  reflexivity.
Qed.

End writers.



(** X. When the path cannot be opened, each of the three writers
    returns normally, leaves the filesystem and the log exactly as they
    were, and prints one line that names the format and carries the
    error. *)
Theorem save_failure_reported {L : DatetimeLib} (E : env)
        (messages : list message) (filename : str) (w : world)
        (msg : str) :
  open_error E filename = Some msg ->
  GmailRetriever.save_messages_json E messages filename w
  = (Returns tt,
     World (fs w) (net w) (stdout w ++ [py "Error saving to JSON: " ++ msg]))
  /\ GmailRetriever.save_messages_csv E messages filename w
     = (Returns tt,
        World (fs w) (net w)
              (stdout w ++ [py "Error saving to CSV: " ++ msg]))
  /\ GmailRetriever.save_messages_text E messages filename w
     = (Returns tt,
        World (fs w) (net w)
              (stdout w ++ [py "Error saving to text: " ++ msg])).
Proof.
  intros Hopen.
  rewrite save_messages_json_run, save_messages_text_run, Hopen.
  rewrite (save_messages_csv_failure E messages filename w msg Hopen).
  repeat split.
Qed.

Lemma save_failure_reported_witness :
  GmailRetriever.save_messages_text
    (L := Rfc2822.reference) (Lab.mailbox [] false) [Lab.bare]
    (py "out.txt") Lab.empty_world
  = (Returns tt,
     World ∅ []
           [py "Error saving to text: [Errno 13] Permission denied"]).
Proof.
  apply (save_failure_reported
           (L := Rfc2822.reference) (Lab.mailbox [] false) [Lab.bare]
           (py "out.txt") Lab.empty_world
           (py "[Errno 13] Permission denied") eq_refl).
Defined.





(** ** More on metadata *)

(** X. The attachment list is what the nodes strictly below the payload
    contribute, in depth-first pre-order: an entry is in the list exactly
    when it describes such a node with a non-empty file name, and no entry
    has an empty file name. *)
Theorem attachments_in_preorder {L : DatetimeLib} (message : message) :
  md_attachments (extract_message_metadata message)
  = match msg_payload message with
    | Some payload => flat_map attachment_of (descendants payload)
    | None => []
    end
  /\ (forall a,
         In a (md_attachments (extract_message_metadata message))
         <-> exists payload q filename,
             msg_payload message = Some payload
             /\ below payload q
             /\ part_filename q = Some filename
             /\ filename <> []
             /\ a = Attachment filename (default [] (part_mimeType q))
                               (default 0%Z (part_body q ≫= body_size)))
  /\ Forall (fun a => att_filename a <> [])
            (md_attachments (extract_message_metadata message)).
Proof.
  destruct (metadata_attachments message) as [Hlist _].
  assert (forall a,
             In a (md_attachments (extract_message_metadata message))
             <-> exists payload q filename,
                 msg_payload message = Some payload
                 /\ below payload q
                 /\ part_filename q = Some filename
                 /\ filename <> []
                 /\ a = Attachment filename (default [] (part_mimeType q))
                                   (default 0%Z (part_body q ≫= body_size)))
    as Hiff.
  { intros a. rewrite Hlist.
    destruct (msg_payload message) as [payload|].
    - rewrite in_flat_map. split.
      + intros (q & Hq & Ha). unfold attachment_of in Ha.
        destruct (part_filename q) as [filename|] eqn:Hf; [|destruct Ha].
        destruct filename as [|c filename]; [destruct Ha|].
        destruct Ha as [Ha | []]. subst a.
        exists payload, q, (c :: filename).
        split; [reflexivity|]. split; [apply below_descendants, Hq|].
        split; [exact Hf|]. split; [discriminate | reflexivity].
      + intros (payload' & q & filename & [= <-] & Hq & Hf & Hne & ->).
        exists q. split; [apply below_descendants, Hq|].
        unfold attachment_of. rewrite Hf.
        destruct filename; [contradiction | left; reflexivity].
    - split; [intros [] | intros (? & ? & ? & [=] & _)]. }
  split; [exact Hlist|]. split; [exact Hiff|].
  apply Forall_forall. intros a Ha. apply list_elem_of_In, Hiff in Ha.
  destruct Ha as (p & q & filename & _ & _ & _ & Hne & ->). exact Hne.
Qed.

(** X. When a header name occurs more than once, the last occurrence is
    the one the lookup keeps; so the [subject] of the metadata is the
    value of the last Subject header of the payload. *)
Theorem header_last_wins {L : DatetimeLib} :
  (forall hs h rest,
      Forall (fun h' => h_name h' <> h_name h) rest ->
      header_dict (hs ++ h :: rest) !! h_name h = Some (h_value h))
  /\ (forall message hs value rest,
         payload_headers (msg_payload message)
         = hs ++ Header (py "Subject") value :: rest ->
         lacks "Subject" rest ->
         md_subject (extract_message_metadata message) = value).
Proof.
  assert (forall hs h rest,
             Forall (fun h' => h_name h' <> h_name h) rest ->
             header_dict (hs ++ h :: rest) !! h_name h = Some (h_value h))
    as Hlast.
  { intros hs h rest Hrest. unfold header_dict.
    rewrite fold_left_app. cbn [fold_left].
    rewrite header_dict_app.
    rewrite (proj2 (header_dict_None rest (h_name h)) Hrest).
    apply lookup_insert_eq. }
  split; [exact Hlast|].
  intros message hs value rest Hheaders Hrest.
  cbn [extract_message_metadata md_subject]. rewrite Hheaders.
  pose proof (Hlast hs (Header (py "Subject") value) rest Hrest) as Hvalue.
  cbn [h_name h_value] in Hvalue. rewrite Hvalue. reflexivity.
Qed.

Lemma header_last_wins_witness :
  md_subject
    (extract_message_metadata
       (L := Rfc2822.reference)
       (Demo.mail "m7"
          (Demo.with_headers
             [("Subject", "first"); ("To", "b@example.com");
              ("Subject", "second"); ("From", "a@example.com")]%string
             (Demo.leaf "text/plain" "QQ=="))))
  = py "second".
Proof.
  apply (proj2 (header_last_wins (L := Rfc2822.reference))
               _ [Header (py "Subject") (py "first");
                  Header (py "To") (py "b@example.com")]
               (py "second") [Header (py "From") (py "a@example.com")]).
  - reflexivity.
  - repeat constructor. discriminate.
Defined.

Lemma split_head_comment (raw comment : str) :
  Py.split_head (py " (") (raw ++ py " (" ++ comment)
  = Py.split_head (py " (") raw.
Proof.
  induction raw as [|c0 raw IH]; [reflexivity|].
  cbn [app Py.split_head]. rewrite IH.
  replace (Py.startswith (py " (") (c0 :: raw ++ py " (" ++ comment))
    with (Py.startswith (py " (") (c0 :: raw)); [reflexivity|].
  destruct raw as [|c1 raw]; cbn.
  - destruct (32 =? c0)%N; reflexivity.
  - reflexivity.
Qed.

(** X. Whatever follows the first [" ("] of the Date header has no part
    in the parse: a header with such a tail gives the same parsed date as
    the header without it; when the text before it is rejected, the field
    is the whole header, tail included. *)
Theorem date_comment_ignored {L : DatetimeLib} (raw comment : str) :
  date_text (raw ++ py " (" ++ comment) = date_text raw
  /\ parse_date (raw ++ py " (" ++ comment)
     = Some (match strptime (date_text raw) with
             | Some dt => isoformat dt
             | None => raw ++ py " (" ++ comment
             end).
Proof.
  assert (date_text (raw ++ py " (" ++ comment) = date_text raw) as Htext
      by (unfold date_text; rewrite split_head_comment; reflexivity).
  split; [exact Htext|].
  unfold parse_date. rewrite Htext.
  assert (Py.truthy (raw ++ py " (" ++ comment) = true) as ->
      by (destruct raw; reflexivity).
  destruct (strptime (date_text raw)); reflexivity.
Qed.

(** ** More on the export workflow *)

Lemma retriever_eta (self : retriever) :
  Retriever (r_auth self) (r_service self) = self.
Proof. destruct self; reflexivity. Qed.

(** X. When the retriever and the authenticator it is built on both hold
    a service handle, [export_search_results] never raises, whatever the
    remote side and the disk do: it returns a summary with a message
    count and a file list, and the retriever as it was. *)
Theorem export_never_raises {L : DatetimeLib} (E : env) (self : retriever)
        (service service' : service) (search_query : str) (max_results : Z)
        (output_prefix : str) (w : world) :
  r_service self = Some service ->
  auth_service (r_auth self) = Some service' ->
  exists s w',
    GmailRetriever.export_search_results E self search_query max_results
                                         output_prefix w
    = (Returns (s, self), w')
    /\ is_Some (sum_message_count s)
    /\ is_Some (sum_files_created s).
Proof.
  intros Hr Ha.
  destruct (search_ready_returns
              E (GmailSearcher.init (Some (r_auth self)) None) service'
              search_query max_results (started search_query w))
    as (hits & w1 & Hsearch); [exact Ha|].
  destruct hits as [|hit hits].
  - rewrite (export_no_hits E self search_query max_results output_prefix w
                            _ w1 Hsearch).
    cbn [s_auth GmailSearcher.init]. rewrite retriever_eta.
    eexists _, _. split; [reflexivity|]. split; eexists; reflexivity.
  - destruct (get_multiple_messages_returns
                E (Retriever (r_auth self) (r_service self)) service
                (map si_id (hit :: hits)) w1 Hr) as (full & w2 & Hget).
    destruct (export_retrieval_returns
                E self search_query max_results output_prefix w hit hits
                _ w1 full _ w2 Hsearch Hget) as [w3 Hexport].
    rewrite Hexport, retriever_eta.
    eexists _, _. split; [reflexivity|]. split; eexists; reflexivity.
Qed.

Lemma export_never_raises_witness :
  exists s w',
    GmailRetriever.export_search_results
      (L := Rfc2822.reference) Cases.unreachable Lab.ready (py "is:inbox")
      100 (py "gmail_export") Lab.empty_world
    = (Returns (s, Lab.ready), w').
Proof.
  destruct (export_never_raises
              (L := Rfc2822.reference) Cases.unreachable Lab.ready
              (Service Lab.fresh) (Service Lab.fresh) (py "is:inbox") 100
              (py "gmail_export") Lab.empty_world eq_refl eq_refl)
    as (s & w' & Hrun & _).
  exists s, w'. exact Hrun.
Defined.

(** *** Which files the export can touch *)

Lemma writes_bind_post (allowed : str -> Prop) {A B} (m : M A)
      (k : A -> M B) (Q : A -> Prop) :
  writes_only allowed m ->
  (forall w a w', m w = (Returns a, w') -> Q a) ->
  (forall a, Q a -> writes_only allowed (k a)) ->
  writes_only allowed (m ≫= k).
Proof.
  intros Hm HQ Hk w r w' Hrun path Hpath. rewrite bind_run in Hrun.
  destruct (m w) as [[a|e] w1] eqn:Hmw.
  - rewrite (Hk a (HQ _ _ _ Hmw) _ _ _ Hrun path Hpath).
    exact (Hm _ _ _ Hmw path Hpath).
  - injection Hrun as <- <-. exact (Hm _ _ _ Hmw path Hpath).
Qed.

Section export_frame.

Context {L : DatetimeLib} (E : env).

Lemma text_loop_frame (filename : str) (total : nat)
      (messages : list message) :
  forall i, writes_only (eq filename)
                        (GmailRetriever.text_loop filename total i messages).
Proof.
  induction messages as [|m rest IH]; intros i;
    cbn [GmailRetriever.text_loop]; [writes_step|].
  repeat (writes_step; try reflexivity). apply IH.
Qed.

Lemma save_messages_frame (messages : list message) (filename : str) :
  writes_only (eq filename)
              (GmailRetriever.save_messages_json E messages filename)
  /\ writes_only (eq filename)
                 (GmailRetriever.save_messages_csv E messages filename)
  /\ writes_only (eq filename)
                 (GmailRetriever.save_messages_text E messages filename).
Proof.
  unfold GmailRetriever.save_messages_json, GmailRetriever.save_messages_csv,
    GmailRetriever.save_messages_text.
  repeat split;
    repeat first [apply text_loop_frame | writes_step; try reflexivity].
Qed.

(** Authenticating keeps the paths of the authenticator. *)
Lemma retriever_ensure_keeps (self : retriever) (w : world)
      (self' : retriever) (w' : world) :
  GmailRetriever.ensure_service E self w = (Returns self', w') ->
  token_file (r_auth self') = token_file (r_auth self).
Proof.
  unfold GmailRetriever.ensure_service, GmailRetriever.authenticate.
  destruct (r_service self); [intros [= <- <-]; reflexivity|].
  rewrite !bind_run.
  destruct (GmailAuthenticator.authenticate E (r_auth self) w)
    as [[[service auth]|e] w1] eqn:Hauth; [|discriminate].
  intros [= <- <-].
  destruct (authenticate_returns _ _ _ _ _ _ Hauth) as (-> & _).
  reflexivity.
Qed.

Lemma retriever_ensure_frame (self : retriever) :
  writes_only (eq (token_file (r_auth self)))
              (GmailRetriever.ensure_service E self).
Proof.
  unfold GmailRetriever.ensure_service, GmailRetriever.authenticate.
  repeat first [apply authenticate_frame | writes_step].
Qed.

Lemma get_full_message_keeps (self : retriever) (message_id : str)
      (w : world) (a : option message * retriever) (w' : world) :
  GmailRetriever.get_full_message E self message_id w = (Returns a, w') ->
  token_file (r_auth (snd a)) = token_file (r_auth self).
Proof.
  unfold GmailRetriever.get_full_message. rewrite bind_run.
  destruct (GmailRetriever.ensure_service E self w)
    as [[self1|e] w1] eqn:Hensure; [|discriminate].
  rewrite bind_run.
  match goal with
  | |- context [match ?m w1 with _ => _ end] =>
    destruct (m w1) as [[message|e] w2]; [|discriminate]
  end.
  intros [= <- <-]. exact (retriever_ensure_keeps _ _ _ _ Hensure).
Qed.

Lemma get_full_message_frame (self : retriever) (message_id : str) :
  writes_only (eq (token_file (r_auth self)))
              (GmailRetriever.get_full_message E self message_id).
Proof.
  unfold GmailRetriever.get_full_message, get_message.
  repeat first [apply retriever_ensure_frame | writes_step].
Qed.

Lemma retrieve_loop_frame (show_progress : bool) (total : nat)
      (message_ids : list str) :
  forall (self : retriever) (i : nat) (messages : list message),
    writes_only (eq (token_file (r_auth self)))
                (GmailRetriever.retrieve_loop E self show_progress total i
                                              message_ids messages).
Proof.
  induction message_ids as [|msg_id rest IH]; intros self i acc;
    cbn [GmailRetriever.retrieve_loop]; [writes_step|].
  apply writes_bind; [destruct (_ && _); writes_step|]. intros _.
  apply (writes_bind_post _ _ _
           (fun a => token_file (r_auth (snd a))
                     = token_file (r_auth self))).
  - apply get_full_message_frame.
  - intros w a w'. apply get_full_message_keeps.
  - intros [message self'] Hkeep. cbn [snd] in Hkeep.
    rewrite <- Hkeep. apply IH.
Qed.

Lemma get_multiple_messages_frame (self : retriever)
      (message_ids : list str) (show_progress : bool) :
  writes_only (eq (token_file (r_auth self)))
              (GmailRetriever.get_multiple_messages E self message_ids
                                                    show_progress).
Proof.
  unfold GmailRetriever.get_multiple_messages.
  apply (writes_bind_post _ _ _
           (fun self' => token_file (r_auth self')
                         = token_file (r_auth self))).
  - apply retriever_ensure_frame.
  - intros w a w'. apply retriever_ensure_keeps.
  - intros self' Hkeep. rewrite <- Hkeep.
    apply writes_bind; [destruct show_progress; writes_step|]. intros _.
    apply writes_bind; [apply retrieve_loop_frame|].
    intros [messages self2]. repeat writes_step.
Qed.

(** The searcher that [search] returns holds the authenticator's paths. *)
Lemma search_keeps (self : searcher) (query : str) (max_results : Z)
      (w : world) (a : list search_item * searcher) (w' : world) :
  GmailSearcher.search E self query max_results w = (Returns a, w') ->
  token_file (s_auth (snd a)) = token_file (s_auth self).
Proof.
  unfold GmailSearcher.search. rewrite bind_run.
  destruct (GmailSearcher.ensure_service E self w)
    as [[self1|e] w1] eqn:Hensure; [|discriminate].
  rewrite !print_bind, bind_run.
  match goal with
  | |- context [match ?m ?w0 with _ => _ end] =>
    destruct (m w0) as [[found|e] w2]; [|discriminate]
  end.
  intros [= <- <-]. cbn [snd].
  unfold GmailSearcher.ensure_service, GmailSearcher.authenticate in Hensure.
  destruct (s_service self); [injection Hensure as <- <-; reflexivity|].
  rewrite !bind_run in Hensure.
  destruct (GmailAuthenticator.authenticate E (s_auth self) w)
    as [[[service auth]|e] w3] eqn:Hauth; [|discriminate Hensure].
  injection Hensure as <- <-.
  destruct (authenticate_returns _ _ _ _ _ _ Hauth) as (-> & _).
  reflexivity.
Qed.

Lemma export_frame (self : retriever) (search_query : str)
      (max_results : Z) (output_prefix : str) :
  writes_only
    (fun path =>
       path = token_file (r_auth self)
       \/ In path (export_paths output_prefix (Strftime.stamp (now E))))
    (GmailRetriever.export_search_results E self search_query max_results
                                          output_prefix).
Proof.
  intros w r w' Hrun path Hpath.
  assert (path <> token_file (r_auth self)) as Htoken by tauto.
  assert (forall file,
             In file (export_paths output_prefix (Strftime.stamp (now E))) ->
             file <> path) as Hfiles by (intros file Hin ->; tauto).
  unfold GmailRetriever.export_search_results in Hrun.
  rewrite print_bind, bind_run in Hrun.
  match type of Hrun with
  | match ?m ?w0 with _ => _ end = _ =>
    destruct (m w0) as [[[hits searcher']|e] w1] eqn:Hsearch
  end.
  2:{ injection Hrun as <- <-.
      rewrite (search_frame E _ _ _ _ _ _ Hsearch path); [reflexivity|].
      cbn [s_auth GmailSearcher.init]. congruence. }
  assert (fs w1 !! path = fs w !! path) as Hw1.
  { rewrite (search_frame E _ _ _ _ _ _ Hsearch path); [reflexivity|].
    cbn [s_auth GmailSearcher.init]. congruence. }
  pose proof (search_keeps _ _ _ _ _ _ Hsearch) as Hkeep.
  cbn [snd s_auth GmailSearcher.init] in Hkeep.
  destruct hits as [|hit hits].
  - rewrite print_bind in Hrun. injection Hrun as <- <-. exact Hw1.
  - cbn beta iota zeta in Hrun. rewrite bind_run in Hrun.
    match type of Hrun with
    | match ?m w1 with _ => _ end = _ =>
      destruct (m w1) as [[[full self2]|e] w2] eqn:Hget
    end.
    2:{ injection Hrun as <- <-. rewrite <- Hw1.
        apply (get_multiple_messages_frame _ _ _ _ _ _ Hget).
        cbn [r_auth]. congruence. }
    assert (fs w2 !! path = fs w !! path) as Hw2.
    { rewrite <- Hw1.
      apply (get_multiple_messages_frame _ _ _ _ _ _ Hget).
      cbn [r_auth]. congruence. }
    set (ts := Strftime.stamp (now E)) in *.
    destruct (save_messages_json_returns
                E full (output_prefix ++ py "_" ++ ts ++ py ".json") w2)
      as [w3 Hjson].
    rewrite bind_run, Hjson in Hrun.
    destruct (save_messages_csv_returns
                E full (output_prefix ++ py "_" ++ ts ++ py ".csv") w3)
      as [w4 Hcsv].
    rewrite bind_run, Hcsv in Hrun.
    destruct (save_messages_text_returns
                E full (output_prefix ++ py "_" ++ ts ++ py ".txt") w4)
      as [w5 Htext].
    rewrite bind_run, Htext in Hrun.
    rewrite !print_bind in Hrun. injection Hrun as <- <-. cbn [fs].
    destruct (save_messages_frame full (output_prefix ++ py "_" ++ ts
                                        ++ py ".txt")) as (_ & _ & Ht).
    destruct (save_messages_frame full (output_prefix ++ py "_" ++ ts
                                        ++ py ".csv")) as (_ & Hc & _).
    destruct (save_messages_frame full (output_prefix ++ py "_" ++ ts
                                        ++ py ".json")) as (Hj & _ & _).
    rewrite (Ht _ _ _ Htext path)
      by (apply Hfiles; right; right; left; reflexivity).
    rewrite (Hc _ _ _ Hcsv path)
      by (apply Hfiles; right; left; reflexivity).
    rewrite (Hj _ _ _ Hjson path)
      by (apply Hfiles; left; reflexivity).
    exact Hw2.
Qed.

End export_frame.

(** X. However [export_search_results] ends, the only files it can have
    created or changed are the three export files of its prefix and
    timestamp and the token store of its authenticator: every other path
    holds what it held before. *)
Theorem export_touches_only {L : DatetimeLib} (E : env) (self : retriever)
        (search_query : str) (max_results : Z) (output_prefix : str)
        (w : world) (path : str) :
  path <> token_file (r_auth self) ->
  ~ In path (export_paths output_prefix (Strftime.stamp (now E))) ->
  fs (snd (GmailRetriever.export_search_results
             E self search_query max_results output_prefix w)) !! path
  = fs w !! path.
Proof.
  intros Htoken Hfiles.
  destruct (GmailRetriever.export_search_results
              E self search_query max_results output_prefix w)
    as [r w'] eqn:Hrun.
  apply (export_frame E self search_query max_results output_prefix
                      w r w' Hrun).
  tauto.
Qed.

Lemma export_touches_only_witness :
  fs (snd (GmailRetriever.export_search_results
             (L := Rfc2822.reference) (Lab.mailbox [Lab.bare] true)
             (GmailRetriever.init (Some Lab.new_auth) None) (py "is:inbox")
             100 (py "gmail_export") Lab.installed))
  !! py "credentials.json"
  = Some [Text (py "{}")].
Proof.
  rewrite (export_touches_only
             (L := Rfc2822.reference) (Lab.mailbox [Lab.bare] true)
             (GmailRetriever.init (Some Lab.new_auth) None) (py "is:inbox")
             100 (py "gmail_export") Lab.installed (py "credentials.json")).
  - reflexivity.
  - discriminate.
  - intros [H | [H | [H | []]]]; vm_compute in H; discriminate H.
Defined.

(** *** What the export writes *)

(** Two export paths of one prefix and timestamp differ when their
    extensions do. *)
Lemma export_path_suffix (output_prefix timestamp a b : str) :
  a <> b ->
  output_prefix ++ py "_" ++ timestamp ++ a
  <> output_prefix ++ py "_" ++ timestamp ++ b.
Proof.
  intros Hab Heq. apply Hab.
  do 3 apply app_inv_head in Heq. exact Heq.
Qed.


